(** * Visualization/report_generator.py: a shallow embedding

    The module draws line plots of drilling parameters and an HTML map of
    wells.  [generate_horizon_drill_image], [generate_random_coordinates],
    [add_marker] and [save_map] are embedded one by one over an explicit
    world state: the state of Python's global random generator, seaborn's
    theme switch, pyplot's figure registry, the folium maps alive, the files
    written and the lines printed.  [generate_stratography_lineplot], which
    no result below is about, is left out.

    Modelling choices, fixed once for the whole development:
    - Python [float]s are exact rationals ([Q]).  Comparisons of finite
      floats are decided exactly as in the source; the rounding of [+], [-]
      and [*] is not modelled, nor are [nan] and the infinities.  The
      results on which the rounding or [nan] bear are stated on a second
      embedding of [generate_random_coordinates], over IEEE 754 doubles
      (module [Binary64]).
    - Python [int]s are [Z]; tuples and lists are [list]s.
    - A table cell (and a well identifier) is an [int] or a [str].
    - [report_constants] is not among the sources: every [c.NAME] is a field
      of the record [Constants], a parameter of each function.
    - The generator behind [random.random()] is a parameter too: a state
      type with a seeding function and a step returning a number of [0, 1).
    - [assert] is enabled (the interpreter does not run with [-O]).
    - Of a plot and of a map the embedding keeps what the program hands to
      matplotlib, seaborn and folium (titles, labels, the arguments of each
      [sns.lineplot] call, markers and their markup), not the picture or the
      page that the libraries render from it.
    - A write to a file succeeds (the directory is there and can be written
      to); the results on the files written are stated for the runs that
      return. *)

From Stdlib Require Import ZArith QArith Qabs Lqa Lia.
From Stdlib Require Import Floats.
From stdpp Require Import list strings pretty gmap.

(** ** Python values *)

Inductive label : Type :=
| LInt (z : Z)
| LStr (s : string).

#[global] Instance label_eq_dec : EqDecision label.
Proof. solve_decision. Defined.

(** [str(x)] for an [int] or a [str]. *)
Definition py_str (x : label) : string :=
  match x with
  | LInt z => pretty z
  | LStr s => s
  end.

Inductive exn : Type :=
| AssertionError (msg : string)
| KeyError (key : string)
| IndexError (msg : string)
| TypeError (msg : string)
| ValueError (msg : string)
| AttributeError (msg : string).

Inductive outcome (A : Type) : Type :=
| Returns (a : A)
| Raises (e : exn).
Arguments Returns {A} a.
Arguments Raises {A} e.

Definition dquote : string := String (Ascii.ascii_of_nat 34) EmptyString.
Definition newline : string := String (Ascii.ascii_of_nat 10) EmptyString.

(** [x > y] on numbers. *)
Definition Qgtb (x y : Q) : bool := negb (Qle_bool x y).

(** ** Tables (pandas.DataFrame) *)

Record DataFrame : Type := {
  df_index : list label;
(** the columns by name; pandas keeps their order too, which nothing
      below reads, and tolerates two columns of one name, which is left out *)
  df_columns : gmap string (list label)
}.

(** [Series.unique()]: the distinct values in order of first appearance. *)
Fixpoint unique_from (seen : list label) (values : list label) : list label :=
  match values with
  | [] => []
  | v :: rest =>
      if bool_decide (v ∈ seen) then unique_from seen rest
      else v :: unique_from (v :: seen) rest
  end.

Definition unique (values : list label) : list label := unique_from [] values.

(** What a caller may pass as [data]. *)
Inductive pyobj : Type :=
| ODataFrame (d : DataFrame)
| OList (l : list label)
| OLabel (x : label)
| ONone.

(** [isinstance(data, pd.DataFrame)] *)
Definition is_DataFrame (data : pyobj) : bool :=
  match data with
  | ODataFrame _ => true
  | _ => false
  end.

(** ** Plots (matplotlib, seaborn) *)

(** A call [sns.lineplot(ax=..., x=x, y=y)], by its arguments.  What seaborn
    draws from them (it sorts by [x] and aggregates the rows that share an
    [x]) is not part of the record. *)
Record Line : Type := {
  line_x : list string;
  line_y : list label
}.

(** A subplot: the title and the x label that the program has set on it,
    and the [sns.lineplot] calls it has received. *)
Record Axes : Type := {
  ax_title : option string;
  ax_xlabel : option string;
  ax_lines : list Line
}.

Record Figure : Type := {
  fig_size : Q * Q;
  fig_suptitle : option string;
  fig_axes : list Axes
}.

(** What [plt.subplots(nrows, 1)] hands back next to the figure.  With the
    default [squeeze=True] a single subplot comes back as the [Axes] object
    itself, several as a one-dimensional array of them. *)
Definition figure_ref : Type := nat.
Definition axes_ref : Type := figure_ref * nat.

Inductive axes_handle : Type :=
| OneAxes (a : axes_ref)
| AxesArray (l : list axes_ref).

(** ** Maps (folium) *)

Record DivIcon : Type := {
  icon_size : Z * Z;
  icon_anchor : Z * Z;
  icon_html : string
}.

Record Marker : Type := {
  marker_location : Q * Q;
  marker_icon : DivIcon
}.

Record FoliumMap : Type := {
  map_location : list Q;
  map_zoom_start : Z;
  map_tiles : string;
  map_markers : list Marker;
  map_html : list string
}.

Definition map_ref : Type := nat.

(** ** Files *)

(** What is saved: the figure or the map as the program has built it.  The
    bytes of the PNG and the text of the HTML page, in which folium puts
    element identifiers of its own, are not modelled. *)
Inductive artifact : Type :=
| PngImage (fig : Figure)
| HtmlPage (m : FoliumMap).

(** ** report_constants *)

Record Constants : Type := {
  EXPORT_PATH : string;
  REPORT_NAME : string;
  REPORT_COLUMNS : list string;
  STR_PLOT_SIZE : Q * Q;
  STR_PLOT_MAIN_TITLE : string;
  STR_PLOT_XLABLE_NAME : string;
  IS_RANDOM_SEED_ACTIVE : bool;
  RANDOM_SEED : Z;
  THRESHOLD_MODIFYER : Q;
  ICON_SIZE : Z * Z;
  ICON_ANCHOR : Z * Z;
  MAP_CENTER : list Q;
  ZOOM_START : Z;
  TILES_TYPE : string;
  RANDOM_COORDS_THRESHOLD : Q;
  WELL_ID_FIELD_NAME : string;
  TARGET_COLOR : string;
  OTHERS_COLOR : string;
  MAP_TITLE : string;
  MAP_NAME : string
}.

(** ** The random generator *)

Class PRNG (G : Type) : Type := {
(** [random.seed(a)] for an [int] seed *)
  seed : Z -> G;
(** [random.random()] *)
  random : G -> Q * G;
  random_unit : forall g, (0 <= (random g).1 /\ (random g).1 < 1)%Q
}.

(** A linear congruential generator, to run the model on concrete inputs. *)
Module LCG.

Definition modulus : positive := 2147483648.

Definition next (s : Z) : Z := ((1103515245 * s + 12345) mod Z.pos modulus)%Z.

Definition step (s : Z) : Q * Z := (Qmake (next s) modulus, next s).

#[global] Instance lcg : PRNG Z.
Proof.
  refine {| seed := fun a => (a mod Z.pos modulus)%Z; random := step |}.
  intros s. unfold step, next, Qle, Qlt; cbn [fst Qnum Qden].
  pose proof (Z.mod_pos_bound (1103515245 * s + 12345) (Z.pos modulus)
                eq_refl) as Hb.
  lia.
Defined.

End LCG.

(** ** The world and the monad of effects *)

Record World (G : Type) : Type := mkWorld {
  (** the state of the generator of module [random] *)
  rng : G;
  (** whether [sns.set()] has set the seaborn theme *)
  sns_theme : bool;
  (** the figures pyplot holds, the current one last; a figure is referred
      to by its position *)
  figures : list Figure;
  (** the folium maps made so far, each referred to by its position *)
  maps : list FoliumMap;
  (** the files written, in order *)
  files : list (string * artifact);
  (** the strings printed, in order *)
  stdout : list string
}.
Arguments mkWorld {G}.
Arguments rng {G}.
Arguments sns_theme {G}.
Arguments figures {G}.
Arguments maps {G}.
Arguments files {G}.
Arguments stdout {G}.

Section Runtime.

Context {G : Type}.

Definition M (A : Type) : Type := World G -> outcome A * World G.

Definition ret {A} (a : A) : M A := fun w => (Returns a, w).

Definition raise {A} (e : exn) : M A := fun w => (Raises e, w).

Definition bind {A B} (m : M A) (k : A -> M B) : M B :=
  fun w =>
    match m w with
    | (Returns a, w') => k a w'
    | (Raises e, w') => (Raises e, w')
    end.

Definition py_assert (b : bool) (msg : string) : M unit :=
  if b then ret tt else raise (AssertionError msg).

Definition set_rng (g : G) (w : World G) : World G :=
  mkWorld g (sns_theme w) (figures w) (maps w) (files w) (stdout w).

Definition set_sns_theme (b : bool) (w : World G) : World G :=
  mkWorld (rng w) b (figures w) (maps w) (files w) (stdout w).

Definition set_figures (fs : list Figure) (w : World G) : World G :=
  mkWorld (rng w) (sns_theme w) fs (maps w) (files w) (stdout w).

Definition set_maps (ms : list FoliumMap) (w : World G) : World G :=
  mkWorld (rng w) (sns_theme w) (figures w) ms (files w) (stdout w).

Definition set_files (fl : list (string * artifact)) (w : World G) : World G :=
  mkWorld (rng w) (sns_theme w) (figures w) (maps w) fl (stdout w).

Definition set_stdout (out : list string) (w : World G) : World G :=
  mkWorld (rng w) (sns_theme w) (figures w) (maps w) (files w) out.

(** [print(s)] *)
Definition print (s : string) : M unit :=
  fun w => (Returns tt, set_stdout (stdout w ++ [s]) w).

(** [files] is the log of the files written, the latest last.  The write
    itself is taken to succeed. *)
Definition write_file (path : string) (content : artifact) : M unit :=
  fun w => (Returns tt, set_files (files w ++ [(path, content)]) w).

End Runtime.

Declare Scope py_scope.
Delimit Scope py_scope with py.
Notation "x <- m ;; k" := (bind m (fun x => k))
  (at level 100, m at next level, right associativity) : py_scope.
Notation "m ;; k" := (bind m (fun _ => k))
  (at level 100, right associativity) : py_scope.
Open Scope py_scope.

Section Loops.

Context {G : Type}.

(** [for x in l: body(x)] *)
Fixpoint for_each {A} (l : list A) (body : A -> M (G := G) unit) : M unit :=
  match l with
  | [] => ret tt
  | x :: rest => body x ;; for_each rest body
  end.

(** [for _ in range(n): s = body(s)], with the local state [s] threaded. *)
Fixpoint for_range {S} (n : nat) (body : S -> M (G := G) S) (s : S) : M S :=
  match n with
  | O => ret s
  | Datatypes.S n' => s' <- body s ;; for_range n' body s'
  end.

(** [t[i]] on a tuple or list *)
Definition getitem {A} (t : list A) (i : nat) : M (G := G) A :=
  match t !! i with
  | Some x => ret x
  | None => raise (IndexError "index out of range")
  end.

End Loops.

(** ** generate_random_coordinates *)

Section RandomCoordinates.

Context {G : Type} `{!PRNG G}.
Variable c : Constants.

(** [random.seed(a)] *)
Definition random_seed (a : Z) : M (G := G) unit :=
  fun w => (Returns tt, set_rng (seed a) w).

(** [random.random()] *)
Definition random_random : M (G := G) Q :=
  fun w => let (r, g) := random (rng w) in (Returns r, set_rng g w).

(** [random.uniform(a, b)], which is [a + (b - a) * self.random()]. *)
Definition random_uniform (a b : Q) : M (G := G) Q :=
  r <- random_random ;;
  ret (a + (b - a) * r)%Q.

(** The body of the loop: two draws, and the pair appended to the list. *)
Definition append_random_coordinate (center : list Q) (threshold : Q)
    (coordinates : list (Q * Q)) : M (G := G) (list (Q * Q)) :=
  center0 <- getitem center 0 ;;
  random_latitude <-
    random_uniform (center0 - threshold) (center0 + threshold) ;;
  center1 <- getitem center 1 ;;
  random_longtitude <-
    random_uniform (center1 - threshold * THRESHOLD_MODIFYER c)
                   (center1 + threshold * THRESHOLD_MODIFYER c) ;;
  ret (coordinates ++ [(random_latitude, random_longtitude)]).

Definition generate_random_coordinates
    (center : list Q) (threshold : Q) (number : Z) : M (G := G) (list (Q * Q)) :=
  py_assert (1 <=? number)%Z "Number must be more or equial 1" ;;
  py_assert (length center =? 2)%nat
    "Wrong center coordinates shape (must be 2 - lat and long)" ;;
  for_each center (fun coordinate =>
    py_assert (Qgtb coordinate 0) "One of the coordinate is less than zero.") ;;
  (if IS_RANDOM_SEED_ACTIVE c then random_seed (RANDOM_SEED c) else ret tt) ;;
  coordinates <-
    for_range (Z.to_nat number) (append_random_coordinate center threshold) [] ;;
  ret coordinates.

(** [x] lies within [center ± spread]. *)
Definition within (x center spread : Q) : Prop :=
  (Qabs (x - center) <= Qabs spread)%Q.

(** A pair lies in the box around [center]: the latitude within
    [center[0] ± threshold], the longitude within
    [center[1] ± threshold * THRESHOLD_MODIFYER]. *)
Definition in_box (center : list Q) (threshold : Q) (p : Q * Q) : Prop :=
  match center with
  | [center0; center1] =>
      within p.1 center0 threshold /\
      within p.2 center1 (threshold * THRESHOLD_MODIFYER c)
  | _ => False
  end.

(** The input contract of [generate_random_coordinates]. *)
Definition valid_request (center : list Q) (number : Z) : Prop :=
  (1 <= number)%Z /\ length center = 2 /\ Forall (fun x => (0 < x)%Q) center.

(** The world in which the loop of [generate_random_coordinates] starts. *)
Definition reseeded (w : World G) : World G :=
  if IS_RANDOM_SEED_ACTIVE c then set_rng (seed (RANDOM_SEED c)) w else w.

End RandomCoordinates.

(** ** Paths (os.path.join, POSIX) *)

Fixpoint ends_with_sep (s : string) : bool :=
  match s with
  | EmptyString => false
  | String a EmptyString => Ascii.eqb a (Ascii.ascii_of_nat 47)
  | String _ rest => ends_with_sep rest
  end.

(** [os.path.join(a, b)]: an absolute [b] wins; a separator is put between
    the two unless [a] is empty or already ends with one. *)
Definition path_join (a b : string) : string :=
  if String.prefix "/" b then b
  else if (String.length a =? 0)%nat || ends_with_sep a then a +:+ b
  else a +:+ "/" +:+ b.

(** ** What the module asks of pandas, seaborn, matplotlib and folium *)

Section Libraries.

Context {G : Type}.

(** [data.columns] *)
Definition attr_columns (data : pyobj) : M (G := G) (gset string) :=
  match data with
  | ODataFrame d => ret (dom (df_columns d))
  | _ => raise (AttributeError "object has no attribute 'columns'")
  end.

(** [data.index] *)
Definition attr_index (data : pyobj) : M (G := G) (list label) :=
  match data with
  | ODataFrame d => ret (df_index d)
  | _ => raise (AttributeError "object has no attribute 'index'")
  end.

(** [data[name]] on a table: the column, or [KeyError]. *)
Definition frame_getitem (d : DataFrame) (name : string)
  : M (G := G) (list label) :=
  match df_columns d !! name with
  | Some values => ret values
  | None => raise (KeyError name)
  end.

(** [data[name]] on any object passed as [data]. *)
Definition data_getitem (data : pyobj) (name : string)
  : M (G := G) (list label) :=
  match data with
  | ODataFrame d => frame_getitem d name
  | _ => raise (TypeError "indices must be integers or slices, not str")
  end.

(** [sns.set()] *)
Definition sns_set : M (G := G) unit :=
  fun w => (Returns tt, set_sns_theme true w).

Definition empty_axes : Axes :=
  {| ax_title := None; ax_xlabel := None; ax_lines := [] |}.

(** [plt.subplots(nrows, 1, sharex=True, figsize=figsize)].  pyplot first
    registers a new figure, which becomes the current one; the grid then
    refuses [nrows = 0].  The subplots are created in order, the last one
    staying the current axes. *)
Definition plt_subplots (nrows : nat) (figsize : Q * Q)
  : M (G := G) (figure_ref * axes_handle) :=
  fun w =>
    let fig := length (figures w) in
    let new_figure n :=
      {| fig_size := figsize; fig_suptitle := None;
         fig_axes := replicate n empty_axes |} in
    match nrows with
    | 0 =>
        (Raises (ValueError "Number of rows must be a positive integer, not 0"),
         set_figures (figures w ++ [new_figure 0]) w)
    | 1 =>
        (Returns (fig, OneAxes (fig, 0)),
         set_figures (figures w ++ [new_figure 1]) w)
    | _ =>
        (Returns (fig, AxesArray ((fun i => (fig, i)) <$> seq 0 nrows)),
         set_figures (figures w ++ [new_figure nrows]) w)
    end.

(** [axes[num]]: an array of axes is indexed, a single [Axes] object is
    not subscriptable. *)
Definition axes_getitem (axes : axes_handle) (num : nat)
  : M (G := G) axes_ref :=
  match axes with
  | OneAxes _ => raise (TypeError "'Axes' object is not subscriptable")
  | AxesArray l =>
      match l !! num with
      | Some a => ret a
      | None => raise (IndexError "index is out of bounds for axis 0")
      end
  end.

Definition alter_axes (f : Axes -> Axes) (a : axes_ref) (figs : list Figure)
  : list Figure :=
  alter (fun fig =>
           {| fig_size := fig_size fig; fig_suptitle := fig_suptitle fig;
              fig_axes := alter f a.2 (fig_axes fig) |}) a.1 figs.

(** [fig.suptitle(title)] *)
Definition fig_set_suptitle (fig : figure_ref) (title : string)
  : M (G := G) unit :=
  fun w =>
    (Returns tt,
     set_figures
       (alter (fun f => {| fig_size := fig_size f; fig_suptitle := Some title;
                           fig_axes := fig_axes f |}) fig (figures w)) w).

(** [sns.lineplot(ax=ax, x=x, y=y)]: the call is recorded on [ax]. *)
Definition sns_lineplot (ax : axes_ref) (x : list string) (y : list label)
  : M (G := G) unit :=
  fun w =>
    (Returns tt,
     set_figures
       (alter_axes (fun a => {| ax_title := ax_title a; ax_xlabel := ax_xlabel a;
                                ax_lines := ax_lines a ++
                                  [{| line_x := x; line_y := y |}] |})
          ax (figures w)) w).

(** [ax.set_title(title)] *)
Definition ax_set_title (ax : axes_ref) (title : string) : M (G := G) unit :=
  fun w =>
    (Returns tt,
     set_figures
       (alter_axes (fun a => {| ax_title := Some title; ax_xlabel := ax_xlabel a;
                                ax_lines := ax_lines a |})
          ax (figures w)) w).

(** [plt.xlabel(name)] labels the current axes of the current figure: the
    last subplot of the figure registered last. *)
Definition plt_xlabel (name : string) : M (G := G) unit :=
  fun w =>
    let fig := pred (length (figures w)) in
    let last_axes :=
      match figures w !! fig with
      | Some f => pred (length (fig_axes f))
      | None => 0
      end in
    (Returns tt,
     set_figures
       (alter_axes (fun a => {| ax_title := ax_title a; ax_xlabel := Some name;
                                ax_lines := ax_lines a |})
          (fig, last_axes) (figures w)) w).

(** [fig.savefig(path)] *)
Definition fig_savefig (fig : figure_ref) (path : string) : M (G := G) unit :=
  fun w =>
    match figures w !! fig with
    | Some f => write_file path (PngImage f) w
    | None => (Raises (ValueError "no such figure"), w)
    end.

(** [folium.Map(location=location, zoom_start=zoom, tiles=tiles)]; folium
    validates that the location has two coordinates. *)
Definition folium_Map (location : list Q) (zoom : Z) (tiles : string)
  : M (G := G) map_ref :=
  fun w =>
    if (length location =? 2)%nat then
      (Returns (length (maps w)),
       set_maps (maps w ++
                 [{| map_location := location; map_zoom_start := zoom;
                     map_tiles := tiles; map_markers := [];
                     map_html := [] |}]) w)
    else
      (Raises (ValueError "Expected two (lat, lon) values for location"), w).

(** [folium.Marker([lat, long], icon=icon).add_to(well_map)] *)
Definition marker_add_to (lat long : Q) (icon : DivIcon) (well_map : map_ref)
  : M (G := G) unit :=
  fun w =>
    (Returns tt,
     set_maps
       (alter (fun m => {| map_location := map_location m;
                           map_zoom_start := map_zoom_start m;
                           map_tiles := map_tiles m;
                           map_markers := map_markers m ++
                             [{| marker_location := (lat, long);
                                 marker_icon := icon |}];
                           map_html := map_html m |})
          well_map (maps w)) w).

(** [well_map.get_root().html.add_child(folium.Element(html))] *)
Definition map_add_html (well_map : map_ref) (html : string)
  : M (G := G) unit :=
  fun w =>
    (Returns tt,
     set_maps
       (alter (fun m => {| map_location := map_location m;
                           map_zoom_start := map_zoom_start m;
                           map_tiles := map_tiles m;
                           map_markers := map_markers m;
                           map_html := map_html m ++ [html] |})
          well_map (maps w)) w).

(** [well_map.save(outfile=path)] *)
Definition map_save (well_map : map_ref) (path : string) : M (G := G) unit :=
  fun w =>
    match maps w !! well_map with
    | Some m => write_file path (HtmlPage m) w
    | None => (Raises (ValueError "no such map"), w)
    end.

End Libraries.

(** ** generate_horizon_drill_image *)

Section DrillImage.

Context {G : Type}.
Variable c : Constants.

Definition generate_horizon_drill_image
    (data : pyobj) (export_path export_name : string) (columns : list string)
  : M (G := G) unit :=
  py_assert (is_DataFrame data) "Data must be pd.DataFrame type!" ;;
  for_each columns (fun column =>
    data_columns <- attr_columns data ;;
    py_assert (bool_decide (column ∈ data_columns))
      ("No " +:+ column +:+ " in data")) ;;
  sns_set ;;
  fig_and_axes <- plt_subplots (length columns) (STR_PLOT_SIZE c) ;;
  let '(fig, axes) := fig_and_axes in
  fig_set_suptitle fig (STR_PLOT_MAIN_TITLE c) ;;
  for_each (zip (seq 0 (length columns)) columns) (fun '(num, column_name) =>
    ax <- axes_getitem axes num ;;
    index <- attr_index data ;;
    y <- data_getitem data column_name ;;
    sns_lineplot ax (map py_str index) y ;;
    ax' <- axes_getitem axes num ;;
    ax_set_title ax' column_name) ;;
  plt_xlabel (STR_PLOT_XLABLE_NAME c) ;;
  let report_full_path := path_join export_path export_name +:+ ".png" in
  fig_savefig fig report_full_path ;;
  print ("Drilling report exported to:" +:+ newline +:+ report_full_path).

(** The subplot of a column once the loop has drawn it: its title and its
    one line, the column against the index. *)
Definition plotted (d : DataFrame) (column : string) : Axes :=
  {| ax_title := Some column; ax_xlabel := None;
     ax_lines := [{| line_x := map py_str (df_index d);
                     line_y := default [] (df_columns d !! column) |}] |}.

Definition with_axes (axes : list Axes) (fig : Figure) : Figure :=
  {| fig_size := fig_size fig; fig_suptitle := fig_suptitle fig;
     fig_axes := axes |}.

End DrillImage.

(** ** add_marker and save_map *)

Section Map.

Context {G : Type} `{!PRNG G}.
Variable c : Constants.

Definition marker_html (color : string) (well_id : label) : string :=
  "<div style=" +:+ dquote +:+ "font-size: 18pt; color : " +:+ color
    +:+ dquote +:+ ">" +:+ py_str well_id +:+ "</div>".

Definition add_marker (well_map : map_ref) (lat long : Q) (color : string)
    (well_id : label) : M (G := G) unit :=
  let html := marker_html color well_id in
  let icon := {| icon_size := ICON_SIZE c; icon_anchor := ICON_ANCHOR c;
                 icon_html := html |} in
  print html ;;
  marker_add_to lat long icon well_map.

(** The colour [save_map] picks for a well. *)
Definition marker_color (target_well_label well_id : label) : string :=
  if String.eqb (py_str well_id) (py_str target_well_label)
  then TARGET_COLOR c
  else OTHERS_COLOR c.

Definition save_map (data : DataFrame) (target_well_label : label)
    (export_path export_name : string) : M (G := G) unit :=
  well_map <- folium_Map (MAP_CENTER c) (ZOOM_START c) (TILES_TYPE c) ;;
  well_ids <- frame_getitem data (WELL_ID_FIELD_NAME c) ;;
  coordinates <-
    generate_random_coordinates c (MAP_CENTER c) (RANDOM_COORDS_THRESHOLD c)
      (Z.of_nat (length (unique well_ids))) ;;
  well_ids' <- frame_getitem data (WELL_ID_FIELD_NAME c) ;;
  for_each (zip (unique well_ids') coordinates) (fun '(well_id, coordinate) =>
    let '(lat, long) := coordinate in
    let color := marker_color target_well_label well_id in
    add_marker well_map lat long color well_id) ;;
  let title_html :=
    "<h3 style=" +:+ dquote +:+ "font-size:20px" +:+ dquote +:+ "><b>"
      +:+ MAP_TITLE c +:+ "</b></h3>" in
  map_add_html well_map title_html ;;
  let map_export_path := path_join export_path export_name +:+ ".html" in
  map_save well_map map_export_path ;;
  print ("Drilling map exported to:" +:+ newline +:+ map_export_path).

(** The marker that [add_marker] builds for a well and its coordinate, in
    the colour [save_map] picks. *)
Definition marker_of (target_well_label : label) (p : label * (Q * Q))
  : Marker :=
  {| marker_location := p.2;
     marker_icon :=
       {| icon_size := ICON_SIZE c; icon_anchor := ICON_ANCHOR c;
          icon_html :=
            marker_html (marker_color target_well_label p.1) p.1 |} |}.

(** The map as [folium.Map] creates it in [save_map]. *)
Definition fresh_map : FoliumMap :=
  {| map_location := MAP_CENTER c; map_zoom_start := ZOOM_START c;
     map_tiles := TILES_TYPE c; map_markers := []; map_html := [] |}.

Definition with_markers (markers : list Marker) (m : FoliumMap) : FoliumMap :=
  {| map_location := map_location m; map_zoom_start := map_zoom_start m;
     map_tiles := map_tiles m; map_markers := markers;
     map_html := map_html m |}.

(** [MAP_CENTER] is a pair of positive numbers. *)
Definition map_center_ok : Prop :=
  length (MAP_CENTER c) = 2 /\ Forall (fun x => (0 < x)%Q) (MAP_CENTER c).

End Map.

(** ** A configuration to run the model on *)

Module Demo.

Definition constants : Constants := {|
  EXPORT_PATH := "export";
  REPORT_NAME := "report";
  REPORT_COLUMNS := ["speed"; "depth"];
  STR_PLOT_SIZE := (10, 8)%Q;
  STR_PLOT_MAIN_TITLE := "Drilling by horizon";
  STR_PLOT_XLABLE_NAME := "str";
  IS_RANDOM_SEED_ACTIVE := true;
  RANDOM_SEED := 42;
  THRESHOLD_MODIFYER := 2;
  ICON_SIZE := (150, 36)%Z;
  ICON_ANCHOR := (0, 0)%Z;
  MAP_CENTER := [61; 73]%Q;
  ZOOM_START := 9;
  TILES_TYPE := "OpenStreetMap";
  RANDOM_COORDS_THRESHOLD := (1 # 10)%Q;
  WELL_ID_FIELD_NAME := "well_id";
  TARGET_COLOR := "red";
  OTHERS_COLOR := "blue";
  MAP_TITLE := "Wells";
  MAP_NAME := "map"
|}.

Definition world (g : Z) : World Z := mkWorld g false [] [] [] [].

Definition wells : DataFrame := {|
  df_index := [LInt 1; LInt 2; LInt 3];
  df_columns :=
    {[ "well_id" := [LInt 1; LInt 2; LInt 1];
       "speed" := [LInt 5; LInt 6; LInt 7];
       "depth" := [LInt 10; LInt 20; LInt 30] ]}
|}.

Definition no_wells : DataFrame := {|
  df_index := [];
  df_columns := {[ "well_id" := [] ]}
|}.

End Demo.

(** ** The script ([if __name__ == "__main__"]) *)

(** [data[mask]]: the rows at which the mask holds. *)
Fixpoint select {A} (mask : list bool) (l : list A) : list A :=
  match mask, l with
  | b :: mask', x :: l' =>
      if b then x :: select mask' l' else select mask' l'
  | _, _ => []
  end.

(** [column == x], element by element. *)
Definition column_eq (values : list label) (x : label) : list bool :=
  map (fun v => bool_decide (v = x)) values.

(** [data[mask]] on a table: the index and every column lose the same
    rows. *)
Definition frame_filter (mask : list bool) (d : DataFrame) : DataFrame :=
  {| df_index := select mask (df_index d);
     df_columns := select mask <$> df_columns d |}.

Section Script.

Context {G : Type} `{!PRNG G}.
Variable c : Constants.

(** [data.set_index(name, drop=True, inplace=True)]: the column becomes
    the index and is no column any more. *)
Definition set_index (name : string) (d : DataFrame)
  : M (G := G) DataFrame :=
  match df_columns d !! name with
  | Some values =>
      ret {| df_index := values; df_columns := delete name (df_columns d) |}
  | None =>
      raise (KeyError ("None of ['" +:+ name +:+ "'] are in the columns"))
  end.

(** The script, from the table that [pd.read_excel] has read on: the
    index is set, the rows of well [1] are drawn, and the map of all wells
    is saved with well [1] as the target. *)
Definition main (sheet : DataFrame) : M (G := G) unit :=
  wells_data <- set_index "str" sheet ;;
  let best_well_label := LInt 1 in
  well_ids <- frame_getitem wells_data (WELL_ID_FIELD_NAME c) ;;
  let best_well_data :=
    frame_filter (column_eq well_ids best_well_label) wells_data in
  generate_horizon_drill_image c (ODataFrame best_well_data)
    (EXPORT_PATH c) (REPORT_NAME c +:+ "_1") (REPORT_COLUMNS c) ;;
  save_map c wells_data best_well_label (EXPORT_PATH c) (MAP_NAME c).

(** The figure that [generate_horizon_drill_image] draws for a table and
    two columns or more: a subplot per column, the x label on the last. *)
Definition report_figure (d : DataFrame) (columns : list string) : Figure :=
  {| fig_size := STR_PLOT_SIZE c;
     fig_suptitle := Some (STR_PLOT_MAIN_TITLE c);
     fig_axes :=
       alter (fun a => {| ax_title := ax_title a;
                          ax_xlabel := Some (STR_PLOT_XLABLE_NAME c);
                          ax_lines := ax_lines a |})
         (pred (length columns)) (map (plotted d) columns) |}.

(** The map that [save_map] saves for the wells and their coordinates. *)
Definition well_page (target_well_label : label) (well_ids : list label)
    (coordinates : list (Q * Q)) : FoliumMap :=
  {| map_location := MAP_CENTER c; map_zoom_start := ZOOM_START c;
     map_tiles := TILES_TYPE c;
     map_markers :=
       map (marker_of c target_well_label) (zip well_ids coordinates);
     map_html :=
       ["<h3 style=" +:+ dquote +:+ "font-size:20px" +:+ dquote +:+ "><b>"
          +:+ MAP_TITLE c +:+ "</b></h3>"] |}.

End Script.

Module DemoScript.

(** A sheet as read from the spreadsheet: three wells over two strata. *)
Definition sheet : DataFrame := {|
  df_index := [LInt 0; LInt 1; LInt 2; LInt 3];
  df_columns :=
    {[ "str" := [LInt 1; LInt 2; LInt 1; LInt 2];
       "well_id" := [LInt 1; LInt 1; LInt 2; LInt 3];
       "speed" := [LInt 5; LInt 6; LInt 7; LInt 8];
       "depth" := [LInt 10; LInt 20; LInt 30; LInt 40] ]}
|}.

(** The configuration of [Demo] with the seed switched off. *)
Definition unseeded : Constants := {|
  EXPORT_PATH := EXPORT_PATH Demo.constants;
  REPORT_NAME := REPORT_NAME Demo.constants;
  REPORT_COLUMNS := REPORT_COLUMNS Demo.constants;
  STR_PLOT_SIZE := STR_PLOT_SIZE Demo.constants;
  STR_PLOT_MAIN_TITLE := STR_PLOT_MAIN_TITLE Demo.constants;
  STR_PLOT_XLABLE_NAME := STR_PLOT_XLABLE_NAME Demo.constants;
  IS_RANDOM_SEED_ACTIVE := false;
  RANDOM_SEED := RANDOM_SEED Demo.constants;
  THRESHOLD_MODIFYER := THRESHOLD_MODIFYER Demo.constants;
  ICON_SIZE := ICON_SIZE Demo.constants;
  ICON_ANCHOR := ICON_ANCHOR Demo.constants;
  MAP_CENTER := MAP_CENTER Demo.constants;
  ZOOM_START := ZOOM_START Demo.constants;
  TILES_TYPE := TILES_TYPE Demo.constants;
  RANDOM_COORDS_THRESHOLD := RANDOM_COORDS_THRESHOLD Demo.constants;
  WELL_ID_FIELD_NAME := WELL_ID_FIELD_NAME Demo.constants;
  TARGET_COLOR := TARGET_COLOR Demo.constants;
  OTHERS_COLOR := OTHERS_COLOR Demo.constants;
  MAP_TITLE := MAP_TITLE Demo.constants;
  MAP_NAME := MAP_NAME Demo.constants
|}.

(** The configuration of [Demo] with a map centered west of Greenwich. *)
Definition western : Constants := {|
  EXPORT_PATH := EXPORT_PATH Demo.constants;
  REPORT_NAME := REPORT_NAME Demo.constants;
  REPORT_COLUMNS := REPORT_COLUMNS Demo.constants;
  STR_PLOT_SIZE := STR_PLOT_SIZE Demo.constants;
  STR_PLOT_MAIN_TITLE := STR_PLOT_MAIN_TITLE Demo.constants;
  STR_PLOT_XLABLE_NAME := STR_PLOT_XLABLE_NAME Demo.constants;
  IS_RANDOM_SEED_ACTIVE := IS_RANDOM_SEED_ACTIVE Demo.constants;
  RANDOM_SEED := RANDOM_SEED Demo.constants;
  THRESHOLD_MODIFYER := THRESHOLD_MODIFYER Demo.constants;
  ICON_SIZE := ICON_SIZE Demo.constants;
  ICON_ANCHOR := ICON_ANCHOR Demo.constants;
  MAP_CENTER := [32; -102]%Q;
  ZOOM_START := ZOOM_START Demo.constants;
  TILES_TYPE := TILES_TYPE Demo.constants;
  RANDOM_COORDS_THRESHOLD := RANDOM_COORDS_THRESHOLD Demo.constants;
  WELL_ID_FIELD_NAME := WELL_ID_FIELD_NAME Demo.constants;
  TARGET_COLOR := TARGET_COLOR Demo.constants;
  OTHERS_COLOR := OTHERS_COLOR Demo.constants;
  MAP_TITLE := MAP_TITLE Demo.constants;
  MAP_NAME := MAP_NAME Demo.constants
|}.

(** The configuration of [Demo] with a single column to report. *)
Definition one_column : Constants := {|
  EXPORT_PATH := EXPORT_PATH Demo.constants;
  REPORT_NAME := REPORT_NAME Demo.constants;
  REPORT_COLUMNS := ["speed"];
  STR_PLOT_SIZE := STR_PLOT_SIZE Demo.constants;
  STR_PLOT_MAIN_TITLE := STR_PLOT_MAIN_TITLE Demo.constants;
  STR_PLOT_XLABLE_NAME := STR_PLOT_XLABLE_NAME Demo.constants;
  IS_RANDOM_SEED_ACTIVE := IS_RANDOM_SEED_ACTIVE Demo.constants;
  RANDOM_SEED := RANDOM_SEED Demo.constants;
  THRESHOLD_MODIFYER := THRESHOLD_MODIFYER Demo.constants;
  ICON_SIZE := ICON_SIZE Demo.constants;
  ICON_ANCHOR := ICON_ANCHOR Demo.constants;
  MAP_CENTER := MAP_CENTER Demo.constants;
  ZOOM_START := ZOOM_START Demo.constants;
  TILES_TYPE := TILES_TYPE Demo.constants;
  RANDOM_COORDS_THRESHOLD := RANDOM_COORDS_THRESHOLD Demo.constants;
  WELL_ID_FIELD_NAME := WELL_ID_FIELD_NAME Demo.constants;
  TARGET_COLOR := TARGET_COLOR Demo.constants;
  OTHERS_COLOR := OTHERS_COLOR Demo.constants;
  MAP_TITLE := MAP_TITLE Demo.constants;
  MAP_NAME := MAP_NAME Demo.constants
|}.

(** The configuration of [Demo] with the index column among the columns
    to report. *)
Definition with_str : Constants := {|
  EXPORT_PATH := EXPORT_PATH Demo.constants;
  REPORT_NAME := REPORT_NAME Demo.constants;
  REPORT_COLUMNS := ["speed"; "str"];
  STR_PLOT_SIZE := STR_PLOT_SIZE Demo.constants;
  STR_PLOT_MAIN_TITLE := STR_PLOT_MAIN_TITLE Demo.constants;
  STR_PLOT_XLABLE_NAME := STR_PLOT_XLABLE_NAME Demo.constants;
  IS_RANDOM_SEED_ACTIVE := IS_RANDOM_SEED_ACTIVE Demo.constants;
  RANDOM_SEED := RANDOM_SEED Demo.constants;
  THRESHOLD_MODIFYER := THRESHOLD_MODIFYER Demo.constants;
  ICON_SIZE := ICON_SIZE Demo.constants;
  ICON_ANCHOR := ICON_ANCHOR Demo.constants;
  MAP_CENTER := MAP_CENTER Demo.constants;
  ZOOM_START := ZOOM_START Demo.constants;
  TILES_TYPE := TILES_TYPE Demo.constants;
  RANDOM_COORDS_THRESHOLD := RANDOM_COORDS_THRESHOLD Demo.constants;
  WELL_ID_FIELD_NAME := WELL_ID_FIELD_NAME Demo.constants;
  TARGET_COLOR := TARGET_COLOR Demo.constants;
  OTHERS_COLOR := OTHERS_COLOR Demo.constants;
  MAP_TITLE := MAP_TITLE Demo.constants;
  MAP_NAME := MAP_NAME Demo.constants
|}.


(** A table without the well-identifier column. *)
Definition no_column : DataFrame := {|
  df_index := [LInt 1];
  df_columns := {[ "speed" := [LInt 5] ]}
|}.

End DemoScript.

(** ** The colours of the markers *)

(** Modelled from the spec: [report_constants], the module that holds
    [TARGET_COLOR] and [OTHERS_COLOR], is not among the sources, and the
    spec does not give their values.  It does say that the marker of the
    target well is drawn in a colour "distinct" from that of all others
    (4.4 and 8): the constants come with the fact that the two colours
    differ. *)
Record ReportConstants : Type := {
  report_constants :> Constants;
  colors_distinct :
    TARGET_COLOR report_constants <> OTHERS_COLOR report_constants
}.

Module DemoColors.

Definition report : ReportConstants :=
  {| report_constants := Demo.constants;
     colors_distinct := ltac:(discriminate) |}.

End DemoColors.

(** ** generate_random_coordinates over binary64

    The function once more, statement by statement, with the numbers as
    the interpreter has them: IEEE 754 doubles (the primitive floats), with
    the rounding of [+], [-] and [*] and with [nan], for which every
    comparison is false.  The results on which the rounding or [nan] bear
    are stated on this embedding. *)

Module Binary64.

Record Constants : Type := {
  IS_RANDOM_SEED_ACTIVE : bool;
  RANDOM_SEED : Z;
  THRESHOLD_MODIFYER : float
}.

Class PRNG (G : Type) : Type := {
  (** [random.seed(a)] for an [int] seed *)
  seed : Z -> G;
  (** [random.random()]: a double of [0, 1) *)
  random : G -> float * G;
  random_unit : forall g,
    (0 <=? (random g).1)%float = true /\ ((random g).1 <? 1)%float = true
}.

Section Generator.

Context {G : Type} `{!PRNG G}.
Variable c : Constants.

(** [random.seed(a)] *)
Definition random_seed (a : Z) : M (G := G) unit :=
  fun w => (Returns tt, set_rng (seed a) w).

(** [random.random()] *)
Definition random_random : M (G := G) float :=
  fun w => let (r, g) := random (rng w) in (Returns r, set_rng g w).

(** [random.uniform(a, b)], which is [a + (b - a) * self.random()]. *)
Definition random_uniform (a b : float) : M (G := G) float :=
  r <- random_random ;;
  ret (a + (b - a) * r)%float.

(** The body of the loop: two draws, and the pair appended to the list. *)
Definition append_random_coordinate (center : list float) (threshold : float)
    (coordinates : list (float * float)) : M (G := G) (list (float * float)) :=
  center0 <- getitem center 0 ;;
  random_latitude <-
    random_uniform (center0 - threshold)%float (center0 + threshold)%float ;;
  center1 <- getitem center 1 ;;
  random_longtitude <-
    random_uniform (center1 - threshold * THRESHOLD_MODIFYER c)%float
                   (center1 + threshold * THRESHOLD_MODIFYER c)%float ;;
  ret (coordinates ++ [(random_latitude, random_longtitude)]).

(** [coordinate > 0.0] is [0.0 < coordinate]; both are false on [nan]. *)
Definition generate_random_coordinates
    (center : list float) (threshold : float) (number : Z)
  : M (G := G) (list (float * float)) :=
  py_assert (1 <=? number)%Z "Number must be more or equial 1" ;;
  py_assert (length center =? 2)%nat
    "Wrong center coordinates shape (must be 2 - lat and long)" ;;
  for_each center (fun coordinate =>
    py_assert (0 <? coordinate)%float
      "One of the coordinate is less than zero.") ;;
  (if IS_RANDOM_SEED_ACTIVE c then random_seed (RANDOM_SEED c) else ret tt) ;;
  coordinates <-
    for_range (Z.to_nat number) (append_random_coordinate center threshold) [] ;;
  ret coordinates.

End Generator.

(** The number that a finite double stands for. *)
Definition exact (x : float) : option Q :=
  match Prim2SF x with
  | S754_zero _ => Some 0%Q
  | S754_finite s m e =>
      let magnitude :=
        if (e <? 0)%Z then (Z.pos m # Z.to_pos (2 ^ (- e)))%Q
        else inject_Z (Z.pos m * 2 ^ e) in
      Some (if s then (- magnitude)%Q else magnitude)
  | S754_infinity _ | S754_nan => None
  end.

(** [x] lies within [center ± spread], the three taken as the numbers they
    stand for. *)
Definition within (x center spread : float) : Prop :=
  match exact x, exact center, exact spread with
  | Some x, Some center, Some spread =>
      (Qabs (x - center) <= Qabs spread)%Q
  | _, _, _ => False
  end.

(** A pair lies in the box around [center]: the latitude within
    [center[0] ± threshold], the longitude within
    [center[1] ± threshold * THRESHOLD_MODIFYER]. *)
Definition in_box (c : Constants) (center : list float) (threshold : float)
    (p : float * float) : Prop :=
  match center with
  | [center0; center1] =>
      within p.1 center0 threshold /\
      within p.2 center1 (threshold * THRESHOLD_MODIFYER c)%float
  | _ => False
  end.

(** [random.uniform(a, b)] at the draw [r]. *)
Definition uniform_at (a b r : float) : float := (a + (b - a) * r)%float.

(** [r] is a double of [0, 1), as [random.random()] returns them. *)
Definition is_draw (r : float) : Prop :=
  (0 <=? r)%float = true /\ (r <? 1)%float = true.

(** The pair is what the loop makes of two draws: the latitude is
    [uniform] between [center[0] - threshold] and [center[0] + threshold],
    the longitude [uniform] between [center[1] - threshold * m] and
    [center[1] + threshold * m] for [m] the [THRESHOLD_MODIFYER], each with
    its own draw and all of it in binary64. *)
Definition drawn_around (c : Constants) (center : list float)
    (threshold : float) (p : float * float) : Prop :=
  exists center0 center1 r1 r2,
    center = [center0; center1] /\ is_draw r1 /\ is_draw r2 /\
    p.1 = uniform_at (center0 - threshold)%float (center0 + threshold)%float
            r1 /\
    p.2 = uniform_at (center1 - threshold * THRESHOLD_MODIFYER c)%float
            (center1 + threshold * THRESHOLD_MODIFYER c)%float r2.

(** A generator for concrete runs, two states long: the draw to come is
    [1 - 2^-53], the largest double below one (the [k = 2^53 - 1] of the
    [k / 2^53] that [random.random()] returns), and one half ever after. *)
Inductive tape : Type :=
| Edge
| Inner.

Definition tape_random (g : tape) : float * tape :=
  match g with
  | Edge => ((1 - 0x1p-53)%float, Inner)
  | Inner => (0.5%float, Inner)
  end.

#[global] Instance tape_prng : PRNG tape.
Proof.
  refine {| seed := fun _ => Inner; random := tape_random |}.
  intros []; vm_compute; split; reflexivity.
Defined.

Definition demo : Constants :=
  {| IS_RANDOM_SEED_ACTIVE := false; RANDOM_SEED := 42;
     THRESHOLD_MODIFYER := 2%float |}.

Definition world (g : tape) : World tape := mkWorld g false [] [] [] [].

(** [0.1], the double nearest to one tenth. *)
Definition tenth : float := 0x1.999999999999ap-4%float.

End Binary64.

(** * Results *)

(** ** The world record *)

Section WorldFacts.

Context {G : Type}.

Lemma set_rng_same (w : World G) : set_rng (rng w) w = w.
Proof. by destruct w. Qed.

Lemma set_rng_twice (g g' : G) (w : World G) :
  set_rng g (set_rng g' w) = set_rng g w.
Proof. by destruct w. Qed.

Lemma rng_set_rng (g : G) (w : World G) : rng (set_rng g w) = g.
Proof. by destruct w. Qed.

End WorldFacts.

(** ** Running a sequence of statements *)

Section MonadFacts.

Context {G : Type}.

Lemma bind_returns {A B} (m : M (G := G) A) (k : A -> M B) w a w' :
  m w = (Returns a, w') -> bind m k w = k a w'.
Proof. unfold bind. by intros ->. Qed.

Lemma bind_raises {A B} (m : M (G := G) A) (k : A -> M B) w e w' :
  m w = (Raises e, w') -> bind m k w = (Raises e, w').
Proof. unfold bind. by intros ->. Qed.

Lemma bind_ret_r {A} (m : M (G := G) A) w : bind m ret w = m w.
Proof. unfold bind, ret. by destruct (m w) as [[a | e] w']. Qed.

Lemma assert_true_run (msg : string) (w : World G) :
  py_assert true msg w = (Returns tt, w).
Proof. done. Qed.

Lemma assert_false_run (msg : string) (w : World G) :
  py_assert false msg w = (Raises (AssertionError msg), w).
Proof. done. Qed.

End MonadFacts.

(** ** Comparisons *)

Lemma Qgtb_true (x y : Q) : Qgtb x y = true <-> (y < x)%Q.
Proof.
  unfold Qgtb. rewrite negb_true_iff, <- not_true_iff_false, Qle_bool_iff.
  split; [apply Qnot_le_lt | apply Qlt_not_le].
Qed.

Lemma Qgtb_false (x y : Q) : Qgtb x y = false <-> (x <= y)%Q.
Proof. unfold Qgtb. by rewrite negb_false_iff, Qle_bool_iff. Qed.

(** [a + (b - a) * r] stays between the two ends, whichever is the larger,
    as long as [r] is taken from the unit interval. *)
Lemma uniform_within (center spread r : Q) :
  (0 <= r)%Q -> (r < 1)%Q ->
  within ((center - spread) + ((center + spread) - (center - spread)) * r)
         center spread.
Proof.
  intros H0 H1. unfold within. apply Qabs_Qle_condition.
  destruct (Qlt_le_dec spread 0) as [Hneg | Hpos].
  - rewrite Qabs_neg by lra. split; nra.
  - rewrite Qabs_pos by lra. split; nra.
Qed.

(** For a spread that is not negative, [within] is the plain interval. *)
Lemma within_interval (x center spread : Q) :
  (0 <= spread)%Q ->
  within x center spread <-> (center - spread <= x <= center + spread)%Q.
Proof.
  intros Hpos. unfold within.
  rewrite Qabs_Qle_condition, (Qabs_pos spread) by done.
  split; intros [? ?]; split; lra.
Qed.

(** ** generate_random_coordinates *)

Section RandomCoordinatesFacts.

Context {G : Type} `{!PRNG G}.
Variable c : Constants.

Lemma positive_checks_pass (center : list Q) (msg : string) (w : World G) :
  Forall (fun x => (0 < x)%Q) center ->
  for_each center (fun coordinate => py_assert (Qgtb coordinate 0) msg) w
  = (Returns tt, w).
Proof.
  induction 1 as [| x l Hx _ IH]; [done |].
  cbn [for_each]. unfold bind, py_assert.
  apply Qgtb_true in Hx. by rewrite Hx.
Qed.

Lemma positive_checks_fail (center : list Q) (msg : string) (w : World G) :
  Exists (fun x => (x <= 0)%Q) center ->
  for_each center (fun coordinate => py_assert (Qgtb coordinate 0) msg) w
  = (Raises (AssertionError msg), w).
Proof.
  induction center as [| x l IH]; intros Hex; [by inversion Hex |].
  cbn [for_each]. unfold bind, py_assert.
  destruct (Qgtb x 0) eqn:Hx.
  - apply Qgtb_true in Hx. apply Exists_cons in Hex as [Hle | Hex].
    + exfalso. lra.
    + by apply IH.
  - done.
Qed.

(** One turn of the loop reads and writes the generator only. *)
Lemma append_random_coordinate_run (center0 center1 threshold : Q)
    (coordinates : list (Q * Q)) (g : G) :
  exists (p : Q * Q) (g' : G),
    in_box c [center0; center1] threshold p /\
    forall w, rng w = g ->
      append_random_coordinate c [center0; center1] threshold coordinates w
      = (Returns (coordinates ++ [p]), set_rng g' w).
Proof.
  destruct (random g) as [r1 g1] eqn:E1.
  destruct (random g1) as [r2 g2] eqn:E2.
  pose proof (random_unit g) as U1. rewrite E1 in U1.
  pose proof (random_unit g1) as U2. rewrite E2 in U2.
  cbn [fst] in U1, U2.
  exists (center0 - threshold
          + (center0 + threshold - (center0 - threshold)) * r1,
          center1 - threshold * THRESHOLD_MODIFYER c
          + (center1 + threshold * THRESHOLD_MODIFYER c
             - (center1 - threshold * THRESHOLD_MODIFYER c)) * r2)%Q, g2.
  split.
  - split; cbn [fst snd]; apply uniform_within; tauto.
  - intros w <-.
    unfold append_random_coordinate, bind, getitem, random_uniform, bind,
      random_random, ret; cbn [lookup list_lookup].
    rewrite E1, rng_set_rng, E2, set_rng_twice. reflexivity.
Qed.

(** The whole loop: [n] pairs are appended, all of them in the box, and
    both the pairs and the generator left behind are determined by the
    generator the loop starts from. *)
Lemma coordinates_loop_run (center0 center1 threshold : Q) (n : nat) :
  forall (coordinates : list (Q * Q)) (g : G),
  exists (drawn : list (Q * Q)) (g' : G),
    length drawn = n /\
    Forall (in_box c [center0; center1] threshold) drawn /\
    forall w, rng w = g ->
      for_range n (append_random_coordinate c [center0; center1] threshold)
        coordinates w
      = (Returns (coordinates ++ drawn), set_rng g' w).
Proof.
  induction n as [| n IH]; intros coordinates g.
  - exists [], g. split_and!; [done | constructor |].
    intros w <-. cbn. by rewrite app_nil_r, set_rng_same.
  - destruct (append_random_coordinate_run center0 center1 threshold
                coordinates g) as (p & g1 & Hp & Hstep).
    destruct (IH (coordinates ++ [p]) g1) as (drawn & g' & Hlen & Hbox & Hloop).
    exists (p :: drawn), g'. split_and!.
    + cbn. by rewrite Hlen.
    + by constructor.
    + intros w Hw. cbn [for_range]. unfold bind at 1.
      rewrite (Hstep w Hw), (Hloop (set_rng g1 w) (rng_set_rng _ _)).
      by rewrite set_rng_twice, <- app_assoc.
Qed.

(** A request that meets the contract reaches the loop. *)
Lemma valid_request_run (center : list Q) (threshold : Q) (number : Z)
    (w : World G) :
  valid_request center number ->
  generate_random_coordinates c center threshold number w
  = for_range (Z.to_nat number) (append_random_coordinate c center threshold)
      [] (reseeded c w).
Proof.
  intros (Hnum & Hlen & Hpos).
  unfold generate_random_coordinates.
  apply Z.leb_le in Hnum as ->. apply Nat.eqb_eq in Hlen as ->.
  rewrite (bind_returns _ _ _ _ _ (assert_true_run _ w)).
  rewrite (bind_returns _ _ _ _ _ (assert_true_run _ w)).
  rewrite (bind_returns _ _ _ _ _ (positive_checks_pass _ _ w Hpos)).
  rewrite (bind_returns _ _ w tt (reseeded c w))
    by (unfold reseeded; by destruct (IS_RANDOM_SEED_ACTIVE c)).
  apply bind_ret_r.
Qed.

(** A request that breaks the contract stops at an assertion, and the
    assertion that fires depends on the arguments only. *)
Lemma invalid_request_run (center : list Q) (threshold : Q) (number : Z) :
  ((number < 1)%Z \/ length center <> 2 \/ Exists (fun x => (x <= 0)%Q) center) ->
  exists msg, forall w : World G,
    generate_random_coordinates c center threshold number w
    = (Raises (AssertionError msg), w).
Proof.
  intros Hbad.
  unfold generate_random_coordinates.
  destruct (1 <=? number)%Z eqn:Hnum; [| by eexists].
  destruct (length center =? 2)%nat eqn:Hlen; [| by eexists].
  apply Z.leb_le in Hnum. apply Nat.eqb_eq in Hlen.
  destruct Hbad as [? | [? | Hex]]; [lia | done |].
  eexists. intros w.
  rewrite (bind_returns _ _ _ _ _ (assert_true_run _ w)).
  rewrite (bind_returns _ _ _ _ _ (assert_true_run _ w)).
  by rewrite (bind_raises _ _ _ _ _ (positive_checks_fail _ _ w Hex)).
Qed.

Lemma valid_request_dec (center : list Q) (number : Z) :
  valid_request center number \/
  ((number < 1)%Z \/ length center <> 2 \/ Exists (fun x => (x <= 0)%Q) center).
Proof.
  unfold valid_request.
  destruct (Z_lt_le_dec number 1); [tauto |].
  destruct (decide (length center = 2)); [| tauto].
  assert (Forall (fun x => (0 < x)%Q) center \/
          Exists (fun x => (x <= 0)%Q) center) as [? | ?]; [| tauto..].
  clear. induction center as [| x l [IH | IH]].
  - left. constructor.
  - destruct (Qlt_le_dec 0 x).
    + left. by constructor.
    + right. by constructor.
  - right. by constructor 2.
Qed.

End RandomCoordinatesFacts.

Section RandomCoordinatesClaims.

Context {G : Type} `{!PRNG G}.
Variable c : Constants.

(** A request that meets the contract returns: the pairs drawn by the
    loop, as many as asked for and all of them in the box. *)
Lemma valid_request_returns (center : list Q) (threshold : Q) (number : Z)
    (w : World G) :
  valid_request center number ->
  exists (coordinates : list (Q * Q)) (g' : G),
    length coordinates = Z.to_nat number /\
    Forall (in_box c center threshold) coordinates /\
    generate_random_coordinates c center threshold number w
    = (Returns coordinates, set_rng g' (reseeded c w)).
Proof.
  intros Hvalid. rewrite valid_request_run by done.
  destruct Hvalid as (_ & Hlen & _).
  destruct center as [| center0 [| center1 [| ? ?]]]; try done.
  destruct (coordinates_loop_run c center0 center1 threshold (Z.to_nat number)
              [] (rng (reseeded c w))) as (drawn & g' & Hn & Hbox & Hrun).
  exists drawn, g'. by rewrite Hrun.
Qed.

(** C1.  A call whose preconditions hold (a count of at least one, a
    center of two positive numbers) returns a list of exactly [number]
    (latitude, longitude) pairs. *)
Theorem generate_random_coordinates_length
    (center : list Q) (threshold : Q) (number : Z) (w : World G) :
  (1 <= number)%Z ->
  length center = 2 ->
  Forall (fun x => (0 < x)%Q) center ->
  exists (coordinates : list (Q * Q)) (w' : World G),
    generate_random_coordinates c center threshold number w
    = (Returns coordinates, w') /\
    Z.of_nat (length coordinates) = number.
Proof.
  intros Hnum Hlen Hpos.
  destruct (valid_request_returns center threshold number w)
    as (coordinates & g' & Hn & _ & Hrun); [done |].
  exists coordinates, (set_rng g' (reseeded c w)).
  split; [done | lia].
Qed.

(** With the seed switched on, the outcome and the generator left behind
    do not depend on the world the call starts in. *)
Lemma seeded_call_run (center : list Q) (threshold : Q) (number : Z) :
  IS_RANDOM_SEED_ACTIVE c = true ->
  (exists coordinates g', forall w : World G,
      generate_random_coordinates c center threshold number w
      = (Returns coordinates, set_rng g' w)) \/
  (exists msg, forall w : World G,
      generate_random_coordinates c center threshold number w
      = (Raises (AssertionError msg), w)).
Proof.
  intros Hseed.
  destruct (valid_request_dec center number) as [Hvalid | Hbad].
  - left. pose proof Hvalid as (_ & Hlen & _).
    destruct center as [| center0 [| center1 [| ? ?]]]; try done.
    destruct (coordinates_loop_run c center0 center1 threshold
                (Z.to_nat number) [] (seed (RANDOM_SEED c)))
      as (drawn & g' & _ & _ & Hloop).
    exists drawn, g'. intros w.
    rewrite valid_request_run by done.
    unfold reseeded. rewrite Hseed.
    rewrite Hloop by apply rng_set_rng. by rewrite set_rng_twice.
  - right. by apply invalid_request_run.
Qed.

(** C4.  With a fixed seed configured, two runs with the same center,
    threshold and number return the same sequence, whatever the state of
    the generator (and of the rest of the world) each run starts in. *)
Theorem generate_random_coordinates_deterministic
    (center : list Q) (threshold : Q) (number : Z) (w1 w2 : World G) :
  IS_RANDOM_SEED_ACTIVE c = true ->
  (generate_random_coordinates c center threshold number w1).1
  = (generate_random_coordinates c center threshold number w2).1.
Proof.
  intros Hseed.
  destruct (seeded_call_run center threshold number Hseed)
    as [(coordinates & g' & Hrun) | (msg & Hrun)];
    by rewrite !Hrun.
Qed.

(** C9.  With the seed switched on, every call seeds the generator anew:
    a call made right after another one with the same arguments, in the
    world the first one left, returns the same list and leaves the same
    world. *)
Theorem generate_random_coordinates_idempotent
    (center : list Q) (threshold : Q) (number : Z) (w : World G) :
  IS_RANDOM_SEED_ACTIVE c = true ->
  generate_random_coordinates c center threshold number
    (generate_random_coordinates c center threshold number w).2
  = generate_random_coordinates c center threshold number w.
Proof.
  intros Hseed.
  destruct (seeded_call_run center threshold number Hseed)
    as [(coordinates & g' & Hrun) | (msg & Hrun)].
  - rewrite (Hrun w). cbn [snd]. by rewrite Hrun, set_rng_twice.
  - rewrite (Hrun w). cbn [snd]. by rewrite Hrun.
Qed.

End RandomCoordinatesClaims.

Lemma generate_random_coordinates_length_witness :
  (1 <= 3)%Z /\
  length [61; 73]%Q = 2 /\
  Forall (fun x => (0 < x)%Q) [61; 73]%Q /\
  exists coordinates w',
    generate_random_coordinates Demo.constants [61; 73]%Q (1 # 10) 3
      (Demo.world 7)
    = (Returns coordinates, w') /\
    Z.of_nat (length coordinates) = 3%Z.
Proof.
  assert (Forall (fun x => (0 < x)%Q) [61; 73]%Q) as Hpos
    by (repeat constructor).
  split_and!; [lia | reflexivity | exact Hpos |].
  apply (generate_random_coordinates_length Demo.constants [61; 73]%Q
           (1 # 10) 3 (Demo.world 7)); [lia | reflexivity | exact Hpos].
Defined.

Lemma generate_random_coordinates_deterministic_witness :
  IS_RANDOM_SEED_ACTIVE Demo.constants = true /\
  (generate_random_coordinates Demo.constants [61; 73]%Q (1 # 10) 2
     (Demo.world 7)).1
  = (generate_random_coordinates Demo.constants [61; 73]%Q (1 # 10) 2
       (Demo.world 2024)).1.
Proof.
  split; [reflexivity |].
  apply (generate_random_coordinates_deterministic Demo.constants
           [61; 73]%Q (1 # 10) 2 (Demo.world 7) (Demo.world 2024)).
  reflexivity.
Defined.

Lemma generate_random_coordinates_idempotent_witness :
  IS_RANDOM_SEED_ACTIVE Demo.constants = true /\
  generate_random_coordinates Demo.constants [61; 73]%Q (1 # 10) 2
    (generate_random_coordinates Demo.constants [61; 73]%Q (1 # 10) 2
       (Demo.world 7)).2
  = generate_random_coordinates Demo.constants [61; 73]%Q (1 # 10) 2
      (Demo.world 7).
Proof.
  split; [reflexivity |].
  apply (generate_random_coordinates_idempotent Demo.constants
           [61; 73]%Q (1 # 10) 2 (Demo.world 7)).
  reflexivity.
Defined.

(** ** save_map *)

Section MapFacts.

Context {G : Type} `{!PRNG G}.
Variable c : Constants.

Lemma frame_getitem_run (data : DataFrame) (name : string)
    (values : list label) (w : World G) :
  df_columns data !! name = Some values ->
  frame_getitem data name w = (Returns values, w).
Proof. unfold frame_getitem. by intros ->. Qed.

Lemma folium_Map_run (location : list Q) (zoom : Z) (tiles : string)
    (w : World G) :
  length location = 2 ->
  folium_Map location zoom tiles w
  = (Returns (length (maps w)),
     set_maps (maps w ++
               [{| map_location := location; map_zoom_start := zoom;
                   map_tiles := tiles; map_markers := [];
                   map_html := [] |}]) w).
Proof. unfold folium_Map. by intros ->. Qed.

Lemma alter_last {A} (f : A -> A) (pre : list A) (x : A) :
  alter f (length pre) (pre ++ [x]) = pre ++ [f x].
Proof.
  replace (length pre) with (length pre + 0) by lia.
  by rewrite alter_app_r.
Qed.

Lemma lookup_last {A} (pre : list A) (x : A) :
  (pre ++ [x]) !! length pre = Some x.
Proof. by rewrite list_lookup_middle. Qed.

Lemma add_marker_run (lat long : Q) (color : string) (well_id : label)
    (w : World G) (pre : list FoliumMap) (m : FoliumMap) :
  maps w = pre ++ [m] ->
  add_marker c (length pre) lat long color well_id w
  = (Returns tt,
     mkWorld (rng w) (sns_theme w) (figures w)
       (pre ++ [with_markers
                  (map_markers m ++
                   [{| marker_location := (lat, long);
                       marker_icon :=
                         {| icon_size := ICON_SIZE c;
                            icon_anchor := ICON_ANCHOR c;
                            icon_html := marker_html color well_id |} |}]) m])
       (files w) (stdout w ++ [marker_html color well_id])).
Proof.
  intros Hmaps. unfold add_marker, bind, print, marker_add_to.
  cbn [maps set_stdout set_maps]. by rewrite Hmaps, alter_last.
Qed.

(** The loop of [save_map]: one marker is added, and its HTML printed, for
    every pair of a well and a coordinate; nothing else changes. *)
Lemma markers_loop_run (target : label) (pairs : list (label * (Q * Q))) :
  forall (w : World G) (pre : list FoliumMap) (m : FoliumMap),
    maps w = pre ++ [m] ->
    for_each pairs (fun '(well_id, coordinate) =>
      let '(lat, long) := coordinate in
      let color := marker_color c target well_id in
      add_marker c (length pre) lat long color well_id) w
    = (Returns tt,
       mkWorld (rng w) (sns_theme w) (figures w)
         (pre ++ [with_markers
                    (map_markers m ++ map (marker_of c target) pairs) m])
         (files w)
         (stdout w ++
          map (fun p => marker_html (marker_color c target p.1) p.1) pairs)).
Proof.
  induction pairs as [| [well_id [lat long]] pairs IH]; intros w pre m Hmaps.
  - cbn. rewrite !app_nil_r. destruct w, m; cbn in *. by subst.
  - cbn [for_each].
    rewrite (bind_returns _ _ _ _ _
               (add_marker_run lat long _ well_id w pre m Hmaps)).
    erewrite IH; [| cbn [maps]; reflexivity].
    cbn [rng sns_theme figures files stdout map_markers with_markers map
         map_location map_zoom_start map_tiles map_html fst snd].
    by rewrite <- !app_assoc.
Qed.

Lemma map_add_html_run (html : string) (w : World G)
    (pre : list FoliumMap) (m : FoliumMap) :
  maps w = pre ++ [m] ->
  map_add_html (length pre) html w
  = (Returns tt,
     set_maps
       (pre ++ [{| map_location := map_location m;
                   map_zoom_start := map_zoom_start m;
                   map_tiles := map_tiles m;
                   map_markers := map_markers m;
                   map_html := map_html m ++ [html] |}]) w).
Proof. intros Hmaps. unfold map_add_html. by rewrite Hmaps, alter_last. Qed.

Lemma map_save_run (path : string) (w : World G)
    (pre : list FoliumMap) (m : FoliumMap) :
  maps w = pre ++ [m] ->
  map_save (length pre) path w
  = (Returns tt, set_files (files w ++ [(path, HtmlPage m)]) w).
Proof. intros Hmaps. unfold map_save. by rewrite Hmaps, lookup_last. Qed.

Lemma maps_reseeded (w : World G) : maps (reseeded c w) = maps w.
Proof. unfold reseeded. by destruct (IS_RANDOM_SEED_ACTIVE c), w. Qed.

Lemma files_reseeded (w : World G) : files (reseeded c w) = files w.
Proof. unfold reseeded. by destruct (IS_RANDOM_SEED_ACTIVE c), w. Qed.

(** Without any well the count passed to the coordinate generator is zero:
    its first assertion stops [save_map], the empty map being all that was
    made. *)
Lemma save_map_no_wells_run (data : DataFrame) (target : label)
    (export_path export_name : string) (well_ids : list label)
    (w : World G) :
  length (MAP_CENTER c) = 2 ->
  df_columns data !! WELL_ID_FIELD_NAME c = Some well_ids ->
  unique well_ids = [] ->
  save_map c data target export_path export_name w
  = (Raises (AssertionError "Number must be more or equial 1"),
     set_maps (maps w ++ [fresh_map c]) w).
Proof.
  intros Hcenter Hcol Hnone. unfold save_map.
  rewrite (bind_returns _ _ _ _ _ (folium_Map_run _ _ _ w Hcenter)).
  rewrite (bind_returns _ _ _ _ _ (frame_getitem_run _ _ _ _ Hcol)).
  rewrite Hnone. apply bind_raises.
  unfold generate_random_coordinates. by apply bind_raises.
Qed.

(** With a well at least, and a sound [MAP_CENTER], [save_map] returns: the
    map it made holds one marker per unique well identifier, paired in order
    with the coordinates drawn, and is the page written. *)
Lemma save_map_run (data : DataFrame) (target : label)
    (export_path export_name : string) (well_ids : list label)
    (w : World G) :
  map_center_ok c ->
  df_columns data !! WELL_ID_FIELD_NAME c = Some well_ids ->
  unique well_ids <> [] ->
  exists (coordinates : list (Q * Q)) (w' : World G) (page : FoliumMap),
    length coordinates = length (unique well_ids) /\
    save_map c data target export_path export_name w = (Returns tt, w') /\
    maps w' = maps w ++ [page] /\
    map_markers page
    = map (marker_of c target) (zip (unique well_ids) coordinates) /\
    files w'
    = files w ++
      [(path_join export_path export_name +:+ ".html", HtmlPage page)].
Proof.
  intros [Hcenter Hpos] Hcol Hsome. unfold save_map.
  rewrite (bind_returns _ _ _ _ _ (folium_Map_run _ _ _ w Hcenter)).
  rewrite (bind_returns _ _ _ _ _ (frame_getitem_run _ _ _ _ Hcol)).
  set (w1 := set_maps _ w).
  destruct (valid_request_returns c (MAP_CENTER c) (RANDOM_COORDS_THRESHOLD c)
              (Z.of_nat (length (unique well_ids))) w1)
    as (coordinates & g' & Hn & _ & Hrun).
  { split_and!; [| done..]. destruct (unique well_ids); [done | cbn; lia]. }
  rewrite Nat2Z.id in Hn.
  rewrite (bind_returns _ _ _ _ _ Hrun).
  rewrite (bind_returns _ _ _ _ _ (frame_getitem_run _ _ _ _ Hcol)).
  erewrite bind_returns; cycle 1.
  { apply (markers_loop_run target _ _ (maps w) (fresh_map c)).
    destruct w; cbn. by rewrite maps_reseeded. }
  erewrite bind_returns; [| by apply map_add_html_run].
  erewrite bind_returns; [| by apply map_save_run].
  unfold print.
  eexists coordinates, _, _. split_and!; [done | reflexivity | reflexivity ..|].
  cbn [files set_files set_stdout set_maps set_rng]. by rewrite files_reseeded.
Qed.

End MapFacts.

(** ** Series.unique *)

Lemma elem_of_unique_from (seen values : list label) (x : label) :
  x ∈ unique_from seen values <-> x ∈ values /\ x ∉ seen.
Proof.
  revert seen. induction values as [| v rest IH]; intros seen; cbn.
  - rewrite elem_of_nil. tauto.
  - case_bool_decide as Hseen.
    + rewrite IH, elem_of_cons. split; [tauto |].
      intros [[-> | ?] ?]; tauto.
    + rewrite !elem_of_cons, IH, elem_of_cons.
      split; [intros [-> | (? & ?)]; tauto |].
      intros [[-> | ?] ?]; [tauto |].
      destruct (decide (x = v)); tauto.
Qed.

Lemma NoDup_unique_from (seen values : list label) :
  NoDup (unique_from seen values).
Proof.
  revert seen. induction values as [| v rest IH]; intros seen; cbn.
  - constructor.
  - case_bool_decide; [done |]. constructor; [| done].
    rewrite elem_of_unique_from, elem_of_cons. tauto.
Qed.

(** [unique] keeps every value of the column, once. *)
Lemma unique_spec (values : list label) :
  NoDup (unique values) /\ forall x, x ∈ unique values <-> x ∈ values.
Proof.
  split; [apply NoDup_unique_from |].
  intros x. unfold unique. rewrite elem_of_unique_from, elem_of_nil. tauto.
Qed.

Lemma unique_nil (values : list label) : unique values = [] <-> values = [].
Proof.
  split; [| by intros ->].
  destruct values as [| v rest]; [done |]. unfold unique. cbn.
  case_bool_decide as Hin; [by apply elem_of_nil in Hin | done].
Qed.

(** ** Marker HTML *)

Lemma append_cons (x : Ascii.ascii) (a b : string) :
  String x a +:+ b = String x (a +:+ b).
Proof. reflexivity. Qed.

Lemma length_append (a b : string) :
  String.length (a +:+ b) = String.length a + String.length b.
Proof.
  induction a as [| x a IH]; [done |].
  rewrite append_cons. cbn. by f_equal.
Qed.

Lemma append_inj_l (a b s : string) : a +:+ s = b +:+ s -> a = b.
Proof.
  revert b. induction a as [| x a IH]; intros [| y b] Heq.
  - done.
  - apply (f_equal String.length) in Heq.
    rewrite !length_append in Heq. cbn in Heq. lia.
  - apply (f_equal String.length) in Heq.
    rewrite !length_append in Heq. cbn in Heq. lia.
  - rewrite !append_cons in Heq. injection Heq as -> Heq.
    f_equal. by apply IH.
Qed.

(** The same well in two colours gives two different pieces of HTML. *)
Lemma marker_html_inj (color color' : string) (well_id : label) :
  marker_html color well_id = marker_html color' well_id -> color = color'.
Proof.
  unfold marker_html. intros Heq.
  do 3 apply String.app_inj in Heq.
  by apply append_inj_l in Heq.
Qed.

Lemma Forall2_zip_map {A B C} (R : A -> C -> Prop) (f : A * B -> C)
    (l : list A) (k : list B) :
  length k = length l ->
  (forall a b, R a (f (a, b))) ->
  Forall2 R l (map f (zip l k)).
Proof.
  intros Hlen Hf. revert k Hlen.
  induction l as [| a l IH]; intros k Hlen.
  - destruct k; [constructor | done].
  - destruct k as [| b k]; [done |]. cbn.
    constructor; [apply Hf | apply IH]. cbn in Hlen. lia.
Qed.

Section MapClaims.

Context {G : Type} `{!PRNG G}.
Variable c : Constants.

(** C7.  For every table (with its well-identifier column), the map that
    [save_map] makes carries exactly one marker per unique well identifier
    of that column: as many markers as unique identifiers, in their order,
    each showing its identifier. *)
Theorem save_map_one_marker_per_well (data : DataFrame) (target : label)
    (export_path export_name : string) (well_ids : list label)
    (w : World G) :
  map_center_ok c ->
  df_columns data !! WELL_ID_FIELD_NAME c = Some well_ids ->
  exists page : FoliumMap,
    maps (save_map c data target export_path export_name w).2
    = maps w ++ [page] /\
    length (map_markers page) = length (unique well_ids) /\
    Forall2 (fun well_id marker =>
               exists color,
                 icon_html (marker_icon marker) = marker_html color well_id)
      (unique well_ids) (map_markers page) /\
    NoDup (unique well_ids) /\
    (forall well_id, well_id ∈ unique well_ids <-> well_id ∈ well_ids).
Proof.
  intros Hcenter Hcol.
  destruct (decide (unique well_ids = [])) as [Hnone | Hsome].
  - rewrite (save_map_no_wells_run c data target export_path export_name
               well_ids w (proj1 Hcenter) Hcol Hnone).
    exists (fresh_map c). rewrite Hnone.
    split_and!; [by destruct w | done | constructor | constructor |].
    apply unique_nil in Hnone as ->. done.
  - destruct (save_map_run c data target export_path export_name well_ids w
                Hcenter Hcol Hsome)
      as (coordinates & w' & page & Hn & Hrun & Hmaps & Hmarkers & _).
    exists page. rewrite Hrun, Hmarkers.
    split_and!; [done | | | apply unique_spec..].
    + rewrite length_map, length_zip. lia.
    + apply Forall2_zip_map; [done |]. intros well_id p. by eexists.
Qed.

(** C8.  On the map of [save_map] the marker of a well whose string form
    equals that of [target_well_label] carries the markup
    [<div style="font-size: 18pt; color : TARGET_COLOR">well</div>], and the
    marker of every other well the same markup with [OTHERS_COLOR]; the two
    colours differ, and so does the markup of a well in the one and in the
    other. *)
Theorem save_map_target_color (rc : ReportConstants) (data : DataFrame)
    (target : label) (export_path export_name : string)
    (well_ids : list label) (w : World G) :
  map_center_ok rc ->
  df_columns data !! WELL_ID_FIELD_NAME rc = Some well_ids ->
  exists page : FoliumMap,
    maps (save_map rc data target export_path export_name w).2
    = maps w ++ [page] /\
    Forall2 (fun well_id marker =>
               (py_str well_id = py_str target ->
                icon_html (marker_icon marker)
                = "<div style=" +:+ dquote +:+ "font-size: 18pt; color : "
                    +:+ TARGET_COLOR rc +:+ dquote +:+ ">"
                    +:+ py_str well_id +:+ "</div>") /\
               (py_str well_id <> py_str target ->
                icon_html (marker_icon marker)
                = "<div style=" +:+ dquote +:+ "font-size: 18pt; color : "
                    +:+ OTHERS_COLOR rc +:+ dquote +:+ ">"
                    +:+ py_str well_id +:+ "</div>" /\
                icon_html (marker_icon marker)
                <> "<div style=" +:+ dquote +:+ "font-size: 18pt; color : "
                     +:+ TARGET_COLOR rc +:+ dquote +:+ ">"
                     +:+ py_str well_id +:+ "</div>"))
      (unique well_ids) (map_markers page) /\
    TARGET_COLOR rc <> OTHERS_COLOR rc.
Proof.
  intros Hcenter Hcol.
  pose proof (colors_distinct rc) as Hcolors.
  destruct (decide (unique well_ids = [])) as [Hnone | Hsome].
  - rewrite (save_map_no_wells_run rc data target export_path export_name
               well_ids w (proj1 Hcenter) Hcol Hnone).
    exists (fresh_map rc). rewrite Hnone.
    split_and!; [by destruct w | constructor | done].
  - destruct (save_map_run rc data target export_path export_name well_ids w
                Hcenter Hcol Hsome)
      as (coordinates & w' & page & Hn & Hrun & Hmaps & Hmarkers & _).
    exists page. rewrite Hrun, Hmarkers. split_and!; [done | | done].
    apply Forall2_zip_map; [done |]. intros well_id p.
    cbn [marker_of marker_icon icon_html fst]. unfold marker_color.
    change ("<div style=" +:+ dquote +:+ "font-size: 18pt; color : "
              +:+ TARGET_COLOR rc +:+ dquote +:+ ">"
              +:+ py_str well_id +:+ "</div>")
      with (marker_html (TARGET_COLOR rc) well_id).
    change ("<div style=" +:+ dquote +:+ "font-size: 18pt; color : "
              +:+ OTHERS_COLOR rc +:+ dquote +:+ ">"
              +:+ py_str well_id +:+ "</div>")
      with (marker_html (OTHERS_COLOR rc) well_id).
    destruct (String.eqb_spec (py_str well_id) (py_str target)) as [Heq | Hne].
    + split; [done | tauto].
    + split; [tauto |]. intros _. split; [done |].
      intros Hhtml. apply marker_html_inj in Hhtml. by apply Hcolors.
Qed.

(** C10.  On a table without any well identifier (an empty table, say)
    [save_map] raises the assertion failure of the coordinate generator,
    whose count must be at least one; nothing is written or printed. *)
Theorem save_map_no_wells_raises (data : DataFrame) (target : label)
    (export_path export_name : string) (well_ids : list label)
    (w : World G) :
  length (MAP_CENTER c) = 2 ->
  df_columns data !! WELL_ID_FIELD_NAME c = Some well_ids ->
  unique well_ids = [] ->
  exists w' : World G,
    save_map c data target export_path export_name w
    = (Raises (AssertionError "Number must be more or equial 1"), w') /\
    files w' = files w /\ stdout w' = stdout w.
Proof.
  intros Hcenter Hcol Hnone.
  rewrite (save_map_no_wells_run c data target export_path export_name
             well_ids w Hcenter Hcol Hnone).
  eexists. split; [reflexivity |]. by destruct w.
Qed.

End MapClaims.

Lemma save_map_one_marker_per_well_witness :
  map_center_ok Demo.constants /\
  df_columns Demo.wells !! WELL_ID_FIELD_NAME Demo.constants
  = Some [LInt 1; LInt 2; LInt 1] /\
  exists page : FoliumMap,
    maps (save_map Demo.constants Demo.wells (LInt 1) "export" "map"
            (Demo.world 7)).2
    = maps (Demo.world 7) ++ [page] /\
    length (map_markers page) = length (unique [LInt 1; LInt 2; LInt 1]) /\
    Forall2 (fun well_id marker =>
               exists color,
                 icon_html (marker_icon marker) = marker_html color well_id)
      (unique [LInt 1; LInt 2; LInt 1]) (map_markers page) /\
    NoDup (unique [LInt 1; LInt 2; LInt 1]) /\
    (forall well_id,
        well_id ∈ unique [LInt 1; LInt 2; LInt 1]
        <-> well_id ∈ [LInt 1; LInt 2; LInt 1]).
Proof.
  assert (map_center_ok Demo.constants) as Hcenter
    by (split; [reflexivity | repeat constructor]).
  split_and!; [exact Hcenter | reflexivity |].
  apply (save_map_one_marker_per_well Demo.constants Demo.wells (LInt 1)
           "export" "map" [LInt 1; LInt 2; LInt 1] (Demo.world 7));
    [exact Hcenter | reflexivity].
Defined.

Lemma save_map_target_color_witness :
  map_center_ok DemoColors.report /\
  df_columns Demo.wells !! WELL_ID_FIELD_NAME DemoColors.report
  = Some [LInt 1; LInt 2; LInt 1] /\
  exists page : FoliumMap,
    maps (save_map DemoColors.report Demo.wells (LInt 1) "export" "map"
            (Demo.world 7)).2
    = maps (Demo.world 7) ++ [page] /\
    Forall2 (fun well_id marker =>
               (py_str well_id = py_str (LInt 1) ->
                icon_html (marker_icon marker)
                = "<div style=" +:+ dquote +:+ "font-size: 18pt; color : "
                    +:+ TARGET_COLOR DemoColors.report +:+ dquote +:+ ">"
                    +:+ py_str well_id +:+ "</div>") /\
               (py_str well_id <> py_str (LInt 1) ->
                icon_html (marker_icon marker)
                = "<div style=" +:+ dquote +:+ "font-size: 18pt; color : "
                    +:+ OTHERS_COLOR DemoColors.report +:+ dquote +:+ ">"
                    +:+ py_str well_id +:+ "</div>" /\
                icon_html (marker_icon marker)
                <> "<div style=" +:+ dquote +:+ "font-size: 18pt; color : "
                     +:+ TARGET_COLOR DemoColors.report +:+ dquote +:+ ">"
                     +:+ py_str well_id +:+ "</div>"))
      (unique [LInt 1; LInt 2; LInt 1]) (map_markers page) /\
    TARGET_COLOR DemoColors.report <> OTHERS_COLOR DemoColors.report.
Proof.
  assert (map_center_ok DemoColors.report) as Hcenter
    by (split; [reflexivity | repeat constructor]).
  split_and!; [exact Hcenter | reflexivity |].
  apply (save_map_target_color DemoColors.report Demo.wells (LInt 1)
           "export" "map" [LInt 1; LInt 2; LInt 1] (Demo.world 7));
    [exact Hcenter | reflexivity].
Defined.

(** The markup of the two markers of the demonstration table, target
    first. *)
Example save_map_demo_markup :
  map (fun marker => icon_html (marker_icon marker))
    (map_markers
       (default (fresh_map Demo.constants)
          (last (maps (save_map Demo.constants Demo.wells (LInt 1) "export"
                         "map" (Demo.world 7)).2))))
  = ["<div style=" +:+ dquote +:+ "font-size: 18pt; color : red" +:+ dquote
       +:+ ">1</div>";
     "<div style=" +:+ dquote +:+ "font-size: 18pt; color : blue" +:+ dquote
       +:+ ">2</div>"].
Proof. vm_compute. reflexivity. Qed.

Lemma save_map_no_wells_raises_witness :
  length (MAP_CENTER Demo.constants) = 2 /\
  df_columns Demo.no_wells !! WELL_ID_FIELD_NAME Demo.constants = Some [] /\
  unique [] = [] /\
  exists w' : World Z,
    save_map Demo.constants Demo.no_wells (LInt 1) "export" "map"
      (Demo.world 7)
    = (Raises (AssertionError "Number must be more or equial 1"), w') /\
    files w' = files (Demo.world 7) /\ stdout w' = stdout (Demo.world 7).
Proof.
  split_and!; [reflexivity.. |].
  apply (save_map_no_wells_raises Demo.constants Demo.no_wells (LInt 1)
           "export" "map" [] (Demo.world 7)); reflexivity.
Defined.

(** ** generate_horizon_drill_image *)

Section DrillImageFacts.

Context {G : Type}.
Variable c : Constants.

(** The loop of column checks on a table: it passes when every name is a
    column, and stops at an assertion, the world untouched, otherwise. *)
Lemma column_checks_pass (d : DataFrame) (columns : list string)
    (w : World G) :
  Forall (fun column => is_Some (df_columns d !! column)) columns ->
  for_each columns (fun column =>
    data_columns <- attr_columns (ODataFrame d) ;;
    py_assert (bool_decide (column ∈ data_columns))
      ("No " +:+ column +:+ " in data")) w
  = (Returns tt, w).
Proof.
  induction 1 as [| column columns Hcol _ IH]; [done |].
  cbn [for_each]. erewrite bind_returns; [exact IH |].
  unfold bind, attr_columns, ret.
  rewrite bool_decide_eq_true_2; [done |]. by apply elem_of_dom.
Qed.

Lemma column_checks_fail (d : DataFrame) (columns : list string)
    (w : World G) :
  Exists (fun column => df_columns d !! column = None) columns ->
  exists msg,
    for_each columns (fun column =>
      data_columns <- attr_columns (ODataFrame d) ;;
      py_assert (bool_decide (column ∈ data_columns))
        ("No " +:+ column +:+ " in data")) w
    = (Raises (AssertionError msg), w).
Proof.
  induction columns as [| column columns IH]; intros Hex;
    [by inversion Hex |].
  cbn [for_each].
  destruct (df_columns d !! column) as [values |] eqn:Hcol.
  - apply Exists_cons in Hex as [Hex | Hex]; [by rewrite Hcol in Hex |].
    destruct (IH Hex) as [msg Hmsg]. exists msg.
    erewrite bind_returns; [exact Hmsg |].
    unfold bind, attr_columns, ret.
    rewrite bool_decide_eq_true_2; [done |]. by apply elem_of_dom.
  - eexists. apply bind_raises.
    unfold bind, attr_columns, ret.
    rewrite bool_decide_eq_false_2; [reflexivity |]. by apply not_elem_of_dom.
Qed.

(** C5.  When [data] is not a table, or when a name of [columns] is not a
    column of the table, the call raises an assertion failure, and does so
    before anything is drawn, written or printed: the world is as it was. *)
Theorem generate_horizon_drill_image_rejects (data : pyobj)
    (export_path export_name : string) (columns : list string)
    (w : World G) :
  (is_DataFrame data = false \/
   exists d column, data = ODataFrame d /\ column ∈ columns /\
                    df_columns d !! column = None) ->
  exists msg,
    generate_horizon_drill_image c data export_path export_name columns w
    = (Raises (AssertionError msg), w).
Proof.
  intros [Hnot | (d & column & -> & Hin & Hnone)];
    unfold generate_horizon_drill_image.
  - rewrite Hnot. by eexists.
  - destruct (column_checks_fail d columns w) as [msg Hmsg].
    { apply Exists_exists. by exists column. }
    exists msg.
    rewrite (bind_returns _ _ _ _ _ (assert_true_run _ w)).
    by apply bind_raises.
Qed.

Lemma alter_middle {A} (f : A -> A) (done : list A) (x : A) (rest : list A) :
  alter f (length done) (done ++ x :: rest) = done ++ f x :: rest.
Proof.
  replace (length done) with (length done + 0) by lia.
  by rewrite alter_app_r.
Qed.

(** One turn of the drawing loop, on the figure registered last: the next
    blank subplot gets the line of the column and its title. *)
Lemma draw_column_run (d : DataFrame) (refs : list axes_ref)
    (column : string) (values : list label) (w : World G)
    (pre : list Figure) (fig : Figure) (drawn rest : list Axes) :
  figures w = pre ++ [fig] ->
  fig_axes fig = drawn ++ empty_axes :: rest ->
  refs !! length drawn = Some (length pre, length drawn) ->
  df_columns d !! column = Some values ->
  (ax <- axes_getitem (AxesArray refs) (length drawn) ;;
   index <- attr_index (ODataFrame d) ;;
   y <- data_getitem (ODataFrame d) column ;;
   sns_lineplot ax (map py_str index) y ;;
   ax' <- axes_getitem (AxesArray refs) (length drawn) ;;
   ax_set_title ax' column) w
  = (Returns tt,
     set_figures
       (pre ++ [with_axes (drawn ++ plotted d column :: rest) fig]) w).
Proof.
  intros Hfig Haxes Href Hcol.
  unfold bind, axes_getitem, attr_index, data_getitem, frame_getitem, ret,
    sns_lineplot, ax_set_title, alter_axes, plotted.
  unfold axes_ref, figure_ref in *.
  rewrite Href, Hcol. cbn [figures set_figures fst snd default].
  rewrite Hfig, alter_last. cbn [fig_axes fig_size fig_suptitle].
  rewrite alter_last. cbn [fig_axes fig_size fig_suptitle].
  rewrite Haxes, !alter_middle.
  by destruct w.
Qed.

(** The drawing loop: the blank subplots are drawn one by one, in the order
    of the columns. *)
Lemma drawing_loop_run (d : DataFrame) (refs : list axes_ref)
    (columns : list string) :
  forall (drawn : list Axes) (w : World G) (pre : list Figure) (fig : Figure),
    figures w = pre ++ [fig] ->
    fig_axes fig = drawn ++ replicate (length columns) empty_axes ->
    (forall i, i < length drawn + length columns ->
               refs !! i = Some (length pre, i)) ->
    Forall (fun column => is_Some (df_columns d !! column)) columns ->
    for_each (zip (seq (length drawn) (length columns)) columns)
      (fun '(num, column_name) =>
         ax <- axes_getitem (AxesArray refs) num ;;
         index <- attr_index (ODataFrame d) ;;
         y <- data_getitem (ODataFrame d) column_name ;;
         sns_lineplot ax (map py_str index) y ;;
         ax' <- axes_getitem (AxesArray refs) num ;;
         ax_set_title ax' column_name) w
    = (Returns tt,
       set_figures
         (pre ++ [with_axes (drawn ++ map (plotted d) columns) fig]) w).
Proof.
  induction columns as [| column columns IH];
    intros drawn w pre fig Hfig Haxes Hrefs Hcols.
  - cbn. rewrite app_nil_r. cbn in Haxes. rewrite app_nil_r in Haxes.
    destruct w, fig; cbn in *. by subst.
  - apply Forall_cons in Hcols as [[values Hcol] Hcols].
    cbn [length seq zip zip_with for_each].
    cbn [length replicate] in Haxes.
    erewrite bind_returns; cycle 1.
    { eapply draw_column_run; [done.. | | done].
      apply Hrefs. cbn. lia. }
    replace (S (length drawn))
      with (length (drawn ++ [plotted d column]))
      by (rewrite length_app; cbn; lia).
    erewrite IH; [| reflexivity | | | done].
    + cbn [with_axes fig_size fig_suptitle set_figures rng sns_theme figures
           maps files stdout map].
      by rewrite <- !app_assoc.
    + cbn [with_axes fig_axes]. by rewrite <- app_assoc.
    + intros i Hi. apply Hrefs. rewrite length_app in Hi. cbn in *. lia.
Qed.

(** With two columns or more, all of them in the table, the call completes:
    one figure with a subplot per column, each titled by its column and
    with its one [sns.lineplot] call, is written to
    [os.path.join(export_path, export_name) + ".png"], and to no other
    path. *)
Lemma several_columns_run (d : DataFrame) (columns : list string)
    (export_path export_name : string) (w : World G) :
  2 <= length columns ->
  Forall (fun column => is_Some (df_columns d !! column)) columns ->
  exists (w' : World G) (fig : Figure),
    generate_horizon_drill_image c (ODataFrame d) export_path export_name
      columns w
    = (Returns tt, w') /\
    files w'
    = files w ++
      [(path_join export_path export_name +:+ ".png", PngImage fig)] /\
    Forall2 (fun column ax =>
               ax_title ax = Some column /\
               exists values,
                 df_columns d !! column = Some values /\
                 ax_lines ax = [{| line_x := map py_str (df_index d);
                                   line_y := values |}])
      columns (fig_axes fig).
Proof.
  intros Hlen Hcols. unfold generate_horizon_drill_image.
  rewrite (bind_returns _ _ _ _ _ (assert_true_run _ w)).
  rewrite (bind_returns _ _ _ _ _ (column_checks_pass d columns w Hcols)).
  unfold bind at 1, sns_set.
  unfold bind at 1, plt_subplots.
  destruct (length columns) as [| [| n]] eqn:Hn; [lia.. |].
  rewrite <- Hn. cbn [figures set_figures set_sns_theme].
  unfold bind at 1, fig_set_suptitle. cbn [figures set_figures].
  rewrite alter_last. cbn [fig_size fig_axes].
  erewrite bind_returns; cycle 1.
  { apply (drawing_loop_run d _ columns [] _ (figures w)).
    - reflexivity.
    - reflexivity.
    - intros i Hi. rewrite list_lookup_fmap, lookup_seq_lt by done. done.
    - done. }
  unfold bind at 1, plt_xlabel. cbn [figures set_figures].
  rewrite length_app, Nat.add_comm. cbn [length Nat.add Nat.pred].
  rewrite lookup_last. unfold alter_axes. cbn [fst snd].
  rewrite alter_last.
  unfold bind at 1, fig_savefig. cbn [figures set_figures].
  rewrite lookup_last.
  unfold write_file, print. cbn [files set_files stdout set_stdout].
  eexists _, _. split_and!; [reflexivity | reflexivity |].
  cbn [fig_axes with_axes app].
  apply Forall2_alter_r; [| by intros column ax _ _ [? ?]].
  clear -Hcols. induction Hcols as [| column columns [values Hcol] _ IH];
    cbn [map]; constructor; [| done].
  split; [done |]. exists values. unfold plotted. cbn. by rewrite Hcol.
Qed.

(** With a single column [plt.subplots] hands back the [Axes] object
    itself, and the first [axes[num]] of the drawing loop raises: the
    figure is there, but nothing is drawn on it, written or printed. *)
Lemma single_column_run (d : DataFrame) (column : string)
    (export_path export_name : string) (w : World G) :
  is_Some (df_columns d !! column) ->
  exists w',
    generate_horizon_drill_image c (ODataFrame d) export_path export_name
      [column] w
    = (Raises (TypeError "'Axes' object is not subscriptable"), w') /\
    files w' = files w /\ stdout w' = stdout w.
Proof.
  intros Hcol. unfold generate_horizon_drill_image.
  rewrite (bind_returns _ _ _ _ _ (assert_true_run _ w)).
  rewrite (bind_returns _ _ _ _ _
             (column_checks_pass d [column] w ltac:(by constructor))).
  eexists. split; [reflexivity |]. by destruct w.
Qed.

(** With no column at all the grid of subplots is refused. *)
Lemma no_column_run (d : DataFrame) (export_path export_name : string)
    (w : World G) :
  exists w',
    generate_horizon_drill_image c (ODataFrame d) export_path export_name
      [] w
    = (Raises (ValueError "Number of rows must be a positive integer, not 0"),
       w') /\
    files w' = files w /\ stdout w' = stdout w.
Proof.
  unfold generate_horizon_drill_image.
  rewrite (bind_returns _ _ _ _ _ (assert_true_run _ w)).
  eexists. split; [reflexivity |]. by destruct w.
Qed.

End DrillImageFacts.

Lemma generate_horizon_drill_image_rejects_witness :
  (is_DataFrame (ODataFrame Demo.wells) = false \/
   exists d column, ODataFrame Demo.wells = ODataFrame d /\
                    column ∈ ["speed"; "pressure"] /\
                    df_columns d !! column = None) /\
  exists msg,
    generate_horizon_drill_image Demo.constants (ODataFrame Demo.wells)
      "export" "report" ["speed"; "pressure"] (Demo.world 7)
    = (Raises (AssertionError msg), Demo.world 7).
Proof.
  assert (exists d column, ODataFrame Demo.wells = ODataFrame d /\
                           column ∈ ["speed"; "pressure"] /\
                           df_columns d !! column = None) as Hmissing.
  { exists Demo.wells, "pressure".
    split_and!; [reflexivity | | reflexivity].
    apply elem_of_cons. right. apply elem_of_cons. by left. }
  split; [by right |].
  apply (generate_horizon_drill_image_rejects Demo.constants
           (ODataFrame Demo.wells) "export" "report" ["speed"; "pressure"]
           (Demo.world 7)).
  by right.
Defined.

(** C6, at a list of one column: the call does not complete, and no file
    is written. *)
Theorem generate_horizon_drill_image_single_column :
  (generate_horizon_drill_image Demo.constants (ODataFrame Demo.wells)
     "export" "report" ["speed"] (Demo.world 7)).1
  = Raises (TypeError "'Axes' object is not subscriptable") /\
  files (generate_horizon_drill_image Demo.constants (ODataFrame Demo.wells)
           "export" "report" ["speed"] (Demo.world 7)).2
  = [].
Proof.
  destruct (single_column_run Demo.constants Demo.wells "speed" "export"
              "report" (Demo.world 7)) as (w' & -> & Hfiles & _);
    [by eexists | done].
Qed.

(** * Further results *)

(** ** Loops *)

Section LoopFacts.

Context {G : Type}.

(** A loop of [n1 + n2] turns is a loop of [n1] turns followed by one of
    [n2] turns on the state the first one leaves. *)
Lemma for_range_add {S} (n1 n2 : nat) (body : S -> M (G := G) S) (s : S)
    (w : World G) :
  for_range (n1 + n2) body s w
  = bind (for_range n1 body s) (for_range n2 body) w.
Proof.
  revert s w. induction n1 as [| n1 IH]; intros s w; [done |].
  cbn [Nat.add for_range]. unfold bind.
  destruct (body s w) as [[s' | e] w']; [| done].
  by rewrite IH.
Qed.

End LoopFacts.

(** ** generate_random_coordinates, further *)

Section RandomCoordinatesMore.

Context {G : Type} `{!PRNG G}.
Variable c : Constants.

Lemma reseeded_off (w : World G) :
  IS_RANDOM_SEED_ACTIVE c = false -> reseeded c w = w.
Proof. unfold reseeded. by intros ->. Qed.

Lemma reseeded_frame (w : World G) :
  sns_theme (reseeded c w) = sns_theme w /\
  figures (reseeded c w) = figures w /\
  maps (reseeded c w) = maps w /\
  files (reseeded c w) = files w /\
  stdout (reseeded c w) = stdout w.
Proof. unfold reseeded. by destruct (IS_RANDOM_SEED_ACTIVE c), w. Qed.

(** The list a turn of the loop starts from is only appended to. *)
Lemma append_random_coordinate_acc (center : list Q) (threshold : Q)
    (coordinates : list (Q * Q)) (w : World G) :
  append_random_coordinate c center threshold coordinates w
  = match append_random_coordinate c center threshold [] w with
    | (Returns drawn, w') => (Returns (coordinates ++ drawn), w')
    | (Raises e, w') => (Raises e, w')
    end.
Proof.
  unfold append_random_coordinate, bind, getitem, random_uniform, bind,
    random_random, ret, raise.
  destruct (center !! 0) as [center0 |]; [| done].
  destruct (random (rng w)) as [r1 g1].
  destruct (center !! 1) as [center1 |]; [| done].
  by destruct (random _) as [r2 g2].
Qed.

Lemma coordinates_loop_acc (center : list Q) (threshold : Q) (n : nat) :
  forall (coordinates : list (Q * Q)) (w : World G),
    for_range n (append_random_coordinate c center threshold) coordinates w
    = match for_range n (append_random_coordinate c center threshold) [] w
      with
      | (Returns drawn, w') => (Returns (coordinates ++ drawn), w')
      | (Raises e, w') => (Raises e, w')
      end.
Proof.
  induction n as [| n IH]; intros coordinates w.
  - cbn. by rewrite app_nil_r.
  - cbn [for_range]. unfold bind.
    rewrite append_random_coordinate_acc.
    destruct (append_random_coordinate c center threshold [] w)
      as [[drawn | e] w']; [| done].
    rewrite (IH (coordinates ++ drawn)), (IH ([] ++ drawn)).
    destruct (for_range n _ [] w') as [[more | e] w'']; [| done].
    by rewrite app_assoc.
Qed.

(** A call that returns was a valid request. *)
Lemma returns_valid (center : list Q) (threshold : Q) (number : Z)
    (w w' : World G) (coordinates : list (Q * Q)) :
  generate_random_coordinates c center threshold number w
  = (Returns coordinates, w') ->
  valid_request center number.
Proof.
  intros Hrun. destruct (valid_request_dec center number) as [? | Hbad];
    [done |].
  destruct (invalid_request_run c center threshold number Hbad) as [msg Hmsg].
  by rewrite Hmsg in Hrun.
Qed.

(** X1.  The call changes nothing of the world but the state of the random
    generator; and when it raises it does not touch the generator either,
    the assertions coming before the seeding. *)
Theorem generate_random_coordinates_frame
    (center : list Q) (threshold : Q) (number : Z) (w : World G) :
  let run := generate_random_coordinates c center threshold number w in
  sns_theme run.2 = sns_theme w /\
  figures run.2 = figures w /\
  maps run.2 = maps w /\
  files run.2 = files w /\
  stdout run.2 = stdout w /\
  (forall e, run.1 = Raises e -> run.2 = w).
Proof.
  cbv zeta.
  destruct (valid_request_dec center number) as [Hvalid | Hbad].
  - destruct (valid_request_returns c center threshold number w Hvalid)
      as (coordinates & g' & _ & _ & ->).
    cbn [fst snd]. destruct (reseeded_frame w) as (? & ? & ? & ? & ?).
    split_and!; try done; by destruct (reseeded c w).
  - destruct (invalid_request_run c center threshold number Hbad) as [msg ->].
    by cbn.
Qed.

Lemma request_prefix
    (center : list Q) (threshold : Q) (n m : Z) (w w1 w2 : World G)
    (fewer more : list (Q * Q)) :
  (n <= m)%Z ->
  generate_random_coordinates c center threshold n w = (Returns fewer, w1) ->
  generate_random_coordinates c center threshold m w = (Returns more, w2) ->
  fewer = take (Z.to_nat n) more.
Proof.
  intros Hle Hn Hm.
  pose proof (returns_valid _ _ _ _ _ _ Hn) as Hvn.
  pose proof (returns_valid _ _ _ _ _ _ Hm) as Hvm.
  destruct (valid_request_returns c center threshold n w Hvn)
    as (fewer' & g' & Hlen & _ & Hn').
  rewrite Hn' in Hn. injection Hn as -> _.
  rewrite valid_request_run in Hn', Hm by done.
  replace (Z.to_nat m) with (Z.to_nat n + Z.to_nat (m - n)) in Hm
    by (destruct Hvn; lia).
  rewrite for_range_add in Hm.
  rewrite (bind_returns _ _ _ _ _ Hn'), coordinates_loop_acc in Hm.
  destruct (for_range _ _ [] _) as [[rest | e] w'] in Hm; [| done].
  injection Hm as <- _. by rewrite <- Hlen, take_app_length.
Qed.

(** X2.  From one and the same world, a call for fewer coordinates returns
    the first ones of a call for more: asking for more only extends the
    list. *)
Theorem generate_random_coordinates_prefix
    (center : list Q) (threshold : Q) (n m : Z) (w w1 w2 : World G)
    (fewer more : list (Q * Q)) :
  (n <= m)%Z ->
  generate_random_coordinates c center threshold n w = (Returns fewer, w1) ->
  generate_random_coordinates c center threshold m w = (Returns more, w2) ->
  fewer = take (Z.to_nat n) more.
Proof. apply request_prefix. Qed.

(** X3.  With the seed switched off the generator is carried over from
    call to call: a call for [n1] coordinates followed by a call for [n2]
    returns, put end to end, what a single call for [n1 + n2] returns, and
    leaves the same world. *)
Theorem generate_random_coordinates_unseeded_append
    (center : list Q) (threshold : Q) (n1 n2 : Z) (w w1 w2 : World G)
    (first second : list (Q * Q)) :
  IS_RANDOM_SEED_ACTIVE c = false ->
  generate_random_coordinates c center threshold n1 w = (Returns first, w1) ->
  generate_random_coordinates c center threshold n2 w1
  = (Returns second, w2) ->
  generate_random_coordinates c center threshold (n1 + n2) w
  = (Returns (first ++ second), w2).
Proof.
  intros Hoff H1 H2.
  pose proof (returns_valid _ _ _ _ _ _ H1) as Hv1.
  pose proof (returns_valid _ _ _ _ _ _ H2) as Hv2.
  assert (valid_request center (n1 + n2)) as Hv
    by (destruct Hv1 as (? & ? & ?), Hv2 as (? & _); split_and!; [lia | done..]).
  rewrite valid_request_run, reseeded_off in H1, H2 |- * by done.
  replace (Z.to_nat (n1 + n2)) with (Z.to_nat n1 + Z.to_nat n2)
    by (destruct Hv1, Hv2; lia).
  rewrite for_range_add, (bind_returns _ _ _ _ _ H1), coordinates_loop_acc.
  by rewrite H2.
Qed.


End RandomCoordinatesMore.

Lemma generate_random_coordinates_prefix_witness :
  exists fewer more w1 w2,
    (1 <= 3)%Z /\
    generate_random_coordinates Demo.constants [61; 73]%Q (1 # 10) 1
      (Demo.world 7) = (Returns fewer, w1) /\
    generate_random_coordinates Demo.constants [61; 73]%Q (1 # 10) 3
      (Demo.world 7) = (Returns more, w2) /\
    fewer = take (Z.to_nat 1) more.
Proof.
  eexists _, _, _, _.
  split_and!; [lia | vm_compute; reflexivity | vm_compute; reflexivity |].
  eapply (generate_random_coordinates_prefix Demo.constants [61; 73]%Q
            (1 # 10) 1 3 (Demo.world 7));
    [lia | vm_compute; reflexivity | vm_compute; reflexivity].
Defined.

Lemma generate_random_coordinates_unseeded_append_witness :
  exists first second w1 w2,
    IS_RANDOM_SEED_ACTIVE DemoScript.unseeded = false /\
    generate_random_coordinates DemoScript.unseeded [61; 73]%Q (1 # 10) 1
      (Demo.world 7) = (Returns first, w1) /\
    generate_random_coordinates DemoScript.unseeded [61; 73]%Q (1 # 10) 2
      w1 = (Returns second, w2) /\
    generate_random_coordinates DemoScript.unseeded [61; 73]%Q (1 # 10)
      (1 + 2) (Demo.world 7) = (Returns (first ++ second), w2).
Proof.
  eexists _, _, _, _.
  split_and!;
    [reflexivity | vm_compute; reflexivity | vm_compute; reflexivity |].
  eapply (generate_random_coordinates_unseeded_append DemoScript.unseeded
            [61; 73]%Q (1 # 10) 1 2 (Demo.world 7));
    [reflexivity | vm_compute; reflexivity | vm_compute; reflexivity].
Defined.


(** ** generate_horizon_drill_image, further *)

Section DrillImageMore.

Context {G : Type}.
Variable c : Constants.

(** With two columns or more, all of them in the table, the world the
    call leaves is known in full. *)
Lemma several_columns_world (d : DataFrame) (columns : list string)
    (export_path export_name : string) (w : World G) :
  2 <= length columns ->
  Forall (fun column => is_Some (df_columns d !! column)) columns ->
  generate_horizon_drill_image c (ODataFrame d) export_path export_name
    columns w
  = (Returns tt,
     mkWorld (rng w) true (figures w ++ [report_figure c d columns]) (maps w)
       (files w ++
        [(path_join export_path export_name +:+ ".png",
          PngImage (report_figure c d columns))])
       (stdout w ++
        ["Drilling report exported to:" +:+ newline +:+
         (path_join export_path export_name +:+ ".png")])).
Proof.
  intros Hlen Hcols. unfold generate_horizon_drill_image.
  rewrite (bind_returns _ _ _ _ _ (assert_true_run _ w)).
  rewrite (bind_returns _ _ _ _ _ (column_checks_pass d columns w Hcols)).
  unfold bind at 1, sns_set.
  unfold bind at 1, plt_subplots.
  destruct (length columns) as [| [| n]] eqn:Hn; [lia.. |].
  rewrite <- Hn. cbn [figures set_figures set_sns_theme].
  unfold bind at 1, fig_set_suptitle. cbn [figures set_figures].
  rewrite alter_last. cbn [fig_size fig_axes].
  erewrite bind_returns; cycle 1.
  { apply (drawing_loop_run d _ columns [] _ (figures w)).
    - reflexivity.
    - reflexivity.
    - intros i Hi. rewrite list_lookup_fmap, lookup_seq_lt by done. done.
    - done. }
  unfold bind at 1, plt_xlabel. cbn [figures set_figures].
  rewrite length_app, Nat.add_comm. cbn [length Nat.add Nat.pred].
  rewrite lookup_last. unfold alter_axes. cbn [fst snd].
  rewrite alter_last.
  unfold bind at 1, fig_savefig. cbn [figures set_figures].
  rewrite lookup_last.
  unfold write_file, print, report_figure.
  cbn [files set_files stdout set_stdout set_figures fig_axes with_axes app
       fig_size fig_suptitle rng sns_theme figures maps].
  by rewrite length_map.
Qed.


(** X8.  The loop of checks stops at the first name that is no column, and
    the message of the assertion names it. *)
Theorem generate_horizon_drill_image_first_missing (d : DataFrame)
    (present : list string) (missing : string) (others : list string)
    (export_path export_name : string) (w : World G) :
  Forall (fun column => is_Some (df_columns d !! column)) present ->
  df_columns d !! missing = None ->
  generate_horizon_drill_image c (ODataFrame d) export_path export_name
    (present ++ missing :: others) w
  = (Raises (AssertionError ("No " +:+ missing +:+ " in data")), w).
Proof.
  intros Hpresent Hmissing. unfold generate_horizon_drill_image.
  rewrite (bind_returns _ _ _ _ _ (assert_true_run _ w)).
  apply bind_raises.
  induction Hpresent as [| column present Hcol _ IH]; cbn [app for_each].
  - apply bind_raises. unfold bind, attr_columns, ret.
    rewrite bool_decide_eq_false_2; [done |]. by apply not_elem_of_dom.
  - erewrite bind_returns; [exact IH |].
    unfold bind, attr_columns, ret.
    rewrite bool_decide_eq_true_2; [done |]. by apply elem_of_dom.
Qed.

(** X9.  With exactly one column, a column of the table, the call never
    returns: the single [Axes] object that pyplot hands back is indexed,
    which raises; a figure has been made by then, but nothing is written
    or printed. *)
Theorem generate_horizon_drill_image_one_column (d : DataFrame)
    (column : string) (export_path export_name : string) (w : World G) :
  is_Some (df_columns d !! column) ->
  exists w' : World G,
    generate_horizon_drill_image c (ODataFrame d) export_path export_name
      [column] w
    = (Raises (TypeError "'Axes' object is not subscriptable"), w') /\
    files w' = files w /\ stdout w' = stdout w /\
    length (figures w') = S (length (figures w)).
Proof.
  intros Hcol. unfold generate_horizon_drill_image.
  rewrite (bind_returns _ _ _ _ _ (assert_true_run _ w)).
  rewrite (bind_returns _ _ _ _ _
             (column_checks_pass d [column] w ltac:(by constructor))).
  eexists. split; [reflexivity |].
  cbn. rewrite length_alter, length_app. cbn. split_and!; [done.. | lia].
Qed.

(** X10.  With no column at all, on any table, the call raises: pyplot
    refuses a grid of no row; nothing is written or printed. *)
Theorem generate_horizon_drill_image_no_column (d : DataFrame)
    (export_path export_name : string) (w : World G) :
  exists w' : World G,
    generate_horizon_drill_image c (ODataFrame d) export_path export_name
      [] w
    = (Raises (ValueError "Number of rows must be a positive integer, not 0"),
       w') /\
    files w' = files w /\ stdout w' = stdout w.
Proof.
  unfold generate_horizon_drill_image.
  rewrite (bind_returns _ _ _ _ _ (assert_true_run _ w)).
  eexists. split; [reflexivity |]. by destruct w.
Qed.

End DrillImageMore.


Lemma generate_horizon_drill_image_first_missing_witness :
  Forall (fun column => is_Some (df_columns Demo.wells !! column)) ["speed"] /\
  df_columns Demo.wells !! "pressure" = None /\
  generate_horizon_drill_image Demo.constants (ODataFrame Demo.wells)
    "export" "report" (["speed"] ++ "pressure" :: ["torque"]) (Demo.world 7)
  = (Raises (AssertionError ("No " +:+ "pressure" +:+ " in data")),
     Demo.world 7).
Proof.
  assert (Forall (fun column => is_Some (df_columns Demo.wells !! column))
            ["speed"]) as Hcols
    by (repeat (constructor; [by eexists |]); constructor).
  split_and!; [exact Hcols | reflexivity |].
  apply (generate_horizon_drill_image_first_missing Demo.constants
           Demo.wells ["speed"] "pressure" ["torque"] "export" "report"
           (Demo.world 7)); [exact Hcols | reflexivity].
Defined.

Lemma generate_horizon_drill_image_one_column_witness :
  is_Some (df_columns Demo.wells !! "speed") /\
  exists w' : World Z,
    generate_horizon_drill_image Demo.constants (ODataFrame Demo.wells)
      "export" "report" ["speed"] (Demo.world 7)
    = (Raises (TypeError "'Axes' object is not subscriptable"), w') /\
    files w' = files (Demo.world 7) /\ stdout w' = stdout (Demo.world 7) /\
    length (figures w') = S (length (figures (Demo.world 7))).
Proof.
  assert (is_Some (df_columns Demo.wells !! "speed")) as Hcol by (by eexists).
  split; [exact Hcol |].
  apply (generate_horizon_drill_image_one_column Demo.constants Demo.wells
           "speed" "export" "report" (Demo.world 7)); exact Hcol.
Defined.

(** ** save_map, further *)

Lemma map_zip_fst {A B C} (f : A -> C) (l : list A) (k : list B) :
  length k = length l ->
  map (fun p => f p.1) (zip l k) = map f l.
Proof.
  revert k. induction l as [| a l IH]; intros [| b k] Hlen; try done.
  cbn. f_equal. apply IH. cbn in Hlen. lia.
Qed.


Section MapMore.

Context {G : Type} `{!PRNG G}.
Variable c : Constants.

(** What a valid request returns is decided by the state of the generator
    alone. *)
Lemma valid_request_rng (center : list Q) (threshold : Q) (number : Z)
    (w : World G) :
  valid_request center number ->
  exists (coordinates : list (Q * Q)) (g' : G),
    length coordinates = Z.to_nat number /\
    Forall (in_box c center threshold) coordinates /\
    forall w' : World G, rng w' = rng w ->
      generate_random_coordinates c center threshold number w'
      = (Returns coordinates, set_rng g' (reseeded c w')).
Proof.
  intros Hvalid. pose proof Hvalid as (_ & Hlen & _).
  destruct center as [| center0 [| center1 [| ? ?]]]; try done.
  destruct (coordinates_loop_run c center0 center1 threshold (Z.to_nat number)
              [] (rng (reseeded c w))) as (drawn & g' & Hn & Hbox & Hrun).
  exists drawn, g'. split_and!; [done.. |].
  intros w' Hrng. rewrite valid_request_run by done. apply Hrun.
  unfold reseeded. destruct (IS_RANDOM_SEED_ACTIVE c); [| done].
  by rewrite !rng_set_rng.
Qed.

(** With a well at least, and a sound [MAP_CENTER], the world that
    [save_map] leaves is known in full; the wells are put at the
    coordinates that the generator returns from the world of the call. *)
Lemma save_map_world (data : DataFrame) (target : label)
    (export_path export_name : string) (well_ids : list label)
    (w : World G) :
  map_center_ok c ->
  df_columns data !! WELL_ID_FIELD_NAME c = Some well_ids ->
  unique well_ids <> [] ->
  exists (coordinates : list (Q * Q)) (g' : G),
    length coordinates = length (unique well_ids) /\
    Forall (in_box c (MAP_CENTER c) (RANDOM_COORDS_THRESHOLD c)) coordinates /\
    generate_random_coordinates c (MAP_CENTER c) (RANDOM_COORDS_THRESHOLD c)
      (Z.of_nat (length (unique well_ids))) w
    = (Returns coordinates, set_rng g' (reseeded c w)) /\
    save_map c data target export_path export_name w
    = (Returns tt,
       mkWorld g' (sns_theme w) (figures w)
         (maps w ++ [well_page c target (unique well_ids) coordinates])
         (files w ++
          [(path_join export_path export_name +:+ ".html",
            HtmlPage (well_page c target (unique well_ids) coordinates))])
         (stdout w ++
          map (fun well_id =>
                 marker_html (marker_color c target well_id) well_id)
            (unique well_ids) ++
          ["Drilling map exported to:" +:+ newline +:+
           (path_join export_path export_name +:+ ".html")])).
Proof.
  intros [Hcenter Hpos] Hcol Hsome.
  destruct (valid_request_rng (MAP_CENTER c) (RANDOM_COORDS_THRESHOLD c)
              (Z.of_nat (length (unique well_ids))) w)
    as (coordinates & g' & Hn & Hbox & Hrun).
  { split_and!; [| done..]. destruct (unique well_ids); [done | cbn; lia]. }
  rewrite Nat2Z.id in Hn.
  exists coordinates, g'. split_and!; [done | done | by apply Hrun |].
  unfold save_map.
  rewrite (bind_returns _ _ _ _ _ (folium_Map_run _ _ _ w Hcenter)).
  rewrite (bind_returns _ _ _ _ _ (frame_getitem_run _ _ _ _ Hcol)).
  erewrite bind_returns; [| apply Hrun; by destruct w].
  rewrite (bind_returns _ _ _ _ _ (frame_getitem_run _ _ _ _ Hcol)).
  erewrite bind_returns; cycle 1.
  { apply (markers_loop_run c target _ _ (maps w) (fresh_map c)).
    destruct w; cbn. by rewrite maps_reseeded. }
  erewrite bind_returns; [| by apply map_add_html_run].
  erewrite bind_returns; [| by apply map_save_run].
  unfold print, well_page.
  destruct (reseeded_frame c
              (set_maps
                 (maps w ++
                  [{| map_location := MAP_CENTER c;
                      map_zoom_start := ZOOM_START c;
                      map_tiles := TILES_TYPE c; map_markers := [];
                      map_html := [] |}]) w))
    as (Htheme & Hfigs & _ & Hfiles & Hout).
  cbn [files set_files set_stdout set_maps set_rng stdout rng sns_theme
       figures maps with_markers fresh_map map_markers map_location
       map_zoom_start map_tiles map_html app] in *.
  rewrite Htheme, Hfigs, Hfiles, Hout.
  rewrite (map_zip_fst
             (fun well_id => marker_html (marker_color c target well_id)
                               well_id)) by done.
  by rewrite <- app_assoc.
Qed.

End MapMore.

Section MapExtras.

Context {G : Type} `{!PRNG G}.
Variable c : Constants.



(** X15.  On a table without the well-identifier column [save_map] raises
    [KeyError] with the name of the column; the map has been made by then,
    but nothing is drawn from the generator, written or printed. *)
Theorem save_map_missing_column (data : DataFrame) (target : label)
    (export_path export_name : string) (w : World G) :
  length (MAP_CENTER c) = 2 ->
  df_columns data !! WELL_ID_FIELD_NAME c = None ->
  exists w' : World G,
    save_map c data target export_path export_name w
    = (Raises (KeyError (WELL_ID_FIELD_NAME c)), w') /\
    maps w' = maps w ++ [fresh_map c] /\
    rng w' = rng w /\ files w' = files w /\ stdout w' = stdout w.
Proof.
  intros Hcenter Hnone. unfold save_map.
  rewrite (bind_returns _ _ _ _ _ (folium_Map_run _ _ _ w Hcenter)).
  eexists. split.
  - apply bind_raises. unfold frame_getitem. by rewrite Hnone.
  - by destruct w.
Qed.

(** X16.  When a coordinate of [MAP_CENTER] is zero or negative (a center
    south of the equator or west of Greenwich), [save_map] raises the
    assertion failure of the coordinate generator on every table that has
    the well-identifier column, and writes and prints nothing. *)
Theorem save_map_nonpositive_center (data : DataFrame) (target : label)
    (export_path export_name : string) (well_ids : list label)
    (w : World G) :
  length (MAP_CENTER c) = 2 ->
  Exists (fun x => (x <= 0)%Q) (MAP_CENTER c) ->
  df_columns data !! WELL_ID_FIELD_NAME c = Some well_ids ->
  exists (msg : string) (w' : World G),
    save_map c data target export_path export_name w
    = (Raises (AssertionError msg), w') /\
    files w' = files w /\ stdout w' = stdout w.
Proof.
  intros Hcenter Hneg Hcol. unfold save_map.
  rewrite (bind_returns _ _ _ _ _ (folium_Map_run _ _ _ w Hcenter)).
  rewrite (bind_returns _ _ _ _ _ (frame_getitem_run _ _ _ _ Hcol)).
  destruct (invalid_request_run c (MAP_CENTER c) (RANDOM_COORDS_THRESHOLD c)
              (Z.of_nat (length (unique well_ids)))) as [msg Hmsg];
    [by right; right |].
  eexists msg, _. split.
  - apply bind_raises. apply Hmsg.
  - by destruct w.
Qed.



End MapExtras.

(** ** The script *)

Section ScriptFacts.

Context {G : Type} `{!PRNG G}.
Variable c : Constants.

Lemma set_index_run (name : string) (d : DataFrame) (values : list label)
    (w : World G) :
  df_columns d !! name = Some values ->
  set_index name d w
  = (Returns {| df_index := values;
                df_columns := delete name (df_columns d) |}, w).
Proof. unfold set_index. by intros ->. Qed.

(** A column other than the one made the index is still there once the
    index is set and the rows are selected, with the rows selected. *)
Lemma filtered_column (mask : list bool) (d : DataFrame)
    (name column : string) (values : list label) :
  column <> name ->
  df_columns d !! column = Some values ->
  (select mask <$> delete name (df_columns d)) !! column
  = Some (select mask values).
Proof.
  intros Hne Hcol. by rewrite lookup_fmap, lookup_delete_ne, Hcol.
Qed.

Lemma filtered_index_column (mask : list bool) (d : DataFrame)
    (name : string) :
  (select mask <$> delete name (df_columns d)) !! name = None.
Proof. by rewrite lookup_fmap, lookup_delete_eq. Qed.

(** The start of the script: the index is set and the rows of well [1]
    are selected, without any effect. *)
Lemma main_start (sheet : DataFrame) (strata well_ids : list label)
    (w : World G) :
  df_columns sheet !! "str" = Some strata ->
  df_columns sheet !! WELL_ID_FIELD_NAME c = Some well_ids ->
  WELL_ID_FIELD_NAME c <> "str" ->
  main c sheet w
  = bind
      (generate_horizon_drill_image c
         (ODataFrame
            (frame_filter (column_eq well_ids (LInt 1))
               {| df_index := strata;
                  df_columns := delete "str" (df_columns sheet) |}))
         (EXPORT_PATH c) (REPORT_NAME c +:+ "_1") (REPORT_COLUMNS c))
      (fun _ =>
         save_map c
           {| df_index := strata;
              df_columns := delete "str" (df_columns sheet) |}
           (LInt 1) (EXPORT_PATH c) (MAP_NAME c)) w.
Proof.
  intros Hstr Hid Hne. unfold main.
  rewrite (bind_returns _ _ _ _ _ (set_index_run _ _ _ w Hstr)).
  erewrite bind_returns; [reflexivity |].
  apply frame_getitem_run. cbn [df_columns].
  by rewrite lookup_delete_ne.
Qed.

(** X20.  The script cannot report the ["str"] column: once it is the
    index it is no column any more, so with ["str"] among the report
    columns the script stops at an assertion of the image generator, the
    world untouched. *)
Theorem main_str_not_reportable (sheet : DataFrame)
    (strata well_ids : list label) (w : World G) :
  df_columns sheet !! "str" = Some strata ->
  df_columns sheet !! WELL_ID_FIELD_NAME c = Some well_ids ->
  WELL_ID_FIELD_NAME c <> "str" ->
  "str" ∈ REPORT_COLUMNS c ->
  exists msg, main c sheet w = (Raises (AssertionError msg), w).
Proof.
  intros Hstr Hid Hne Hin.
  rewrite (main_start sheet strata well_ids w) by done.
  set (d := frame_filter _ _).
  destruct (column_checks_fail d (REPORT_COLUMNS c) w) as [msg Hmsg].
  { apply Exists_exists. exists "str". split; [done |].
    apply filtered_index_column. }
  exists msg. apply bind_raises. unfold generate_horizon_drill_image.
  rewrite (bind_returns _ _ _ _ _ (assert_true_run _ w)).
  by apply bind_raises.
Qed.

(** X21.  With a single report column the script writes nothing at all:
    the image generator raises on its one subplot, and the map is never
    made. *)
Theorem main_one_report_column (sheet : DataFrame)
    (strata well_ids : list label) (column : string) (w : World G) :
  df_columns sheet !! "str" = Some strata ->
  df_columns sheet !! WELL_ID_FIELD_NAME c = Some well_ids ->
  WELL_ID_FIELD_NAME c <> "str" ->
  REPORT_COLUMNS c = [column] ->
  column <> "str" ->
  is_Some (df_columns sheet !! column) ->
  exists w' : World G,
    main c sheet w
    = (Raises (TypeError "'Axes' object is not subscriptable"), w') /\
    files w' = files w /\ maps w' = maps w /\ stdout w' = stdout w.
Proof.
  intros Hstr Hid Hne Hone Hcol [values Hvalues].
  rewrite (main_start sheet strata well_ids w) by done.
  rewrite Hone.
  set (d := frame_filter _ _).
  assert (is_Some (df_columns d !! column)) as Hpresent.
  { subst d. cbn [frame_filter df_columns].
    erewrite filtered_column by done. by eexists. }
  unfold generate_horizon_drill_image at 1.
  erewrite bind_raises; cycle 1.
  { rewrite (bind_returns _ _ _ _ _ (assert_true_run _ w)).
    rewrite (bind_returns _ _ _ _ _
               (column_checks_pass d [column] w ltac:(by constructor))).
    reflexivity. }
  eexists. split; [reflexivity |]. by destruct w.
Qed.

End ScriptFacts.

(** ** Runs of the further results on the demonstration tables *)

Lemma demo_center_ok : map_center_ok Demo.constants.
Proof. split; [reflexivity | repeat constructor]. Defined.

Lemma demo_wells_some : unique [LInt 1; LInt 2; LInt 1] <> [].
Proof. intros Heq. vm_compute in Heq. discriminate Heq. Defined.



Lemma save_map_missing_column_witness :
  length (MAP_CENTER Demo.constants) = 2 /\
  df_columns DemoScript.no_column !! WELL_ID_FIELD_NAME Demo.constants
  = None /\
  exists w' : World Z,
    save_map Demo.constants DemoScript.no_column (LInt 1) "export" "map"
      (Demo.world 7)
    = (Raises (KeyError (WELL_ID_FIELD_NAME Demo.constants)), w') /\
    maps w' = maps (Demo.world 7) ++ [fresh_map Demo.constants] /\
    rng w' = rng (Demo.world 7) /\ files w' = files (Demo.world 7) /\
    stdout w' = stdout (Demo.world 7).
Proof.
  split_and!; [reflexivity.. |].
  apply (save_map_missing_column Demo.constants DemoScript.no_column
           (LInt 1) "export" "map" (Demo.world 7)); reflexivity.
Defined.

Lemma western_center_negative :
  Exists (fun x => (x <= 0)%Q) (MAP_CENTER DemoScript.western).
Proof.
  apply Exists_cons. right. apply Exists_cons. left.
  intros Hgt. discriminate Hgt.
Defined.

Lemma save_map_nonpositive_center_witness :
  length (MAP_CENTER DemoScript.western) = 2 /\
  Exists (fun x => (x <= 0)%Q) (MAP_CENTER DemoScript.western) /\
  df_columns Demo.wells !! WELL_ID_FIELD_NAME DemoScript.western
  = Some [LInt 1; LInt 2; LInt 1] /\
  exists (msg : string) (w' : World Z),
    save_map DemoScript.western Demo.wells (LInt 1) "export" "map"
      (Demo.world 7)
    = (Raises (AssertionError msg), w') /\
    files w' = files (Demo.world 7) /\ stdout w' = stdout (Demo.world 7).
Proof.
  split_and!; [reflexivity | exact western_center_negative | reflexivity |].
  apply (save_map_nonpositive_center DemoScript.western Demo.wells (LInt 1)
           "export" "map" [LInt 1; LInt 2; LInt 1] (Demo.world 7));
    [reflexivity | exact western_center_negative | reflexivity].
Defined.



Lemma demo_report_columns :
  Forall (fun column => column <> "str" /\
                        is_Some (df_columns DemoScript.sheet !! column))
    (REPORT_COLUMNS Demo.constants).
Proof.
  repeat (constructor; [split; [discriminate | by eexists] |]). constructor.
Defined.

Lemma main_str_not_reportable_witness :
  df_columns DemoScript.sheet !! "str"
  = Some [LInt 1; LInt 2; LInt 1; LInt 2] /\
  df_columns DemoScript.sheet !! WELL_ID_FIELD_NAME DemoScript.with_str
  = Some [LInt 1; LInt 1; LInt 2; LInt 3] /\
  WELL_ID_FIELD_NAME DemoScript.with_str <> "str" /\
  "str" ∈ REPORT_COLUMNS DemoScript.with_str /\
  exists msg,
    main DemoScript.with_str DemoScript.sheet (Demo.world 7)
    = (Raises (AssertionError msg), Demo.world 7).
Proof.
  assert ("str" ∈ REPORT_COLUMNS DemoScript.with_str) as Hin
    by (apply elem_of_cons; right; apply elem_of_cons; by left).
  split_and!; [reflexivity | reflexivity | discriminate | exact Hin |].
  apply (main_str_not_reportable DemoScript.with_str DemoScript.sheet
           [LInt 1; LInt 2; LInt 1; LInt 2] [LInt 1; LInt 1; LInt 2; LInt 3]
           (Demo.world 7));
    [reflexivity | reflexivity | discriminate | exact Hin].
Defined.

Lemma main_one_report_column_witness :
  df_columns DemoScript.sheet !! "str"
  = Some [LInt 1; LInt 2; LInt 1; LInt 2] /\
  df_columns DemoScript.sheet !! WELL_ID_FIELD_NAME DemoScript.one_column
  = Some [LInt 1; LInt 1; LInt 2; LInt 3] /\
  WELL_ID_FIELD_NAME DemoScript.one_column <> "str" /\
  REPORT_COLUMNS DemoScript.one_column = ["speed"] /\
  "speed" <> "str" /\
  is_Some (df_columns DemoScript.sheet !! "speed") /\
  exists w' : World Z,
    main DemoScript.one_column DemoScript.sheet (Demo.world 7)
    = (Raises (TypeError "'Axes' object is not subscriptable"), w') /\
    files w' = files (Demo.world 7) /\ maps w' = maps (Demo.world 7) /\
    stdout w' = stdout (Demo.world 7).
Proof.
  assert (is_Some (df_columns DemoScript.sheet !! "speed")) as Hcol
    by (by eexists).
  split_and!;
    [reflexivity | reflexivity | discriminate | reflexivity | discriminate
     | exact Hcol |].
  apply (main_one_report_column DemoScript.one_column DemoScript.sheet
           [LInt 1; LInt 2; LInt 1; LInt 2] [LInt 1; LInt 1; LInt 2; LInt 3]
           "speed" (Demo.world 7));
    [reflexivity | reflexivity | discriminate | reflexivity | discriminate
     | exact Hcol].
Defined.

(** ** add_marker *)

Section AddMarkerFacts.

Context {G : Type}.
Variable c : Constants.

(** X22.  [add_marker] puts one marker more, at [lat, long] and with an
    icon of the configured size and anchor showing the well in the colour
    given, at the end of the markers of the map it is given; the other maps
    are left alone, the HTML of the icon is the one line printed, and
    nothing is written. *)
Theorem add_marker_adds_one (well_map : map_ref) (lat long : Q)
    (color : string) (well_id : label) (m : FoliumMap) (w : World G) :
  maps w !! well_map = Some m ->
  exists w' : World G,
    add_marker c well_map lat long color well_id w = (Returns tt, w') /\
    maps w' !! well_map
    = Some (with_markers
              (map_markers m ++
               [{| marker_location := (lat, long);
                   marker_icon :=
                     {| icon_size := ICON_SIZE c;
                        icon_anchor := ICON_ANCHOR c;
                        icon_html := marker_html color well_id |} |}]) m) /\
    (forall other, other <> well_map -> maps w' !! other = maps w !! other) /\
    stdout w' = stdout w ++ [marker_html color well_id] /\
    files w' = files w.
Proof.
  intros Hmap. unfold add_marker, bind, print, marker_add_to.
  eexists. split; [reflexivity |].
  cbn [maps set_maps set_stdout stdout files]. split_and!.
  - unfold map_ref in *.
    rewrite list_lookup_alter, decide_True by done. by rewrite Hmap.
  - intros other Hother. by rewrite list_lookup_alter_ne.
  - reflexivity.
  - reflexivity.
Qed.

End AddMarkerFacts.

Lemma add_marker_adds_one_witness :
  maps (mkWorld 7%Z false [] [fresh_map Demo.constants] [] [])
  !! 0 = Some (fresh_map Demo.constants) /\
  exists w' : World Z,
    add_marker Demo.constants 0 61 73 "red" (LInt 1)
      (mkWorld 7%Z false [] [fresh_map Demo.constants] [] [])
    = (Returns tt, w') /\
    maps w' !! 0
    = Some (with_markers
              (map_markers (fresh_map Demo.constants) ++
               [{| marker_location := (61, 73)%Q;
                   marker_icon :=
                     {| icon_size := ICON_SIZE Demo.constants;
                        icon_anchor := ICON_ANCHOR Demo.constants;
                        icon_html := marker_html "red" (LInt 1) |} |}])
              (fresh_map Demo.constants)) /\
    (forall other, other <> 0 ->
       maps w' !! other
       = maps (mkWorld 7%Z false [] [fresh_map Demo.constants] [] [])
         !! other) /\
    stdout w'
    = stdout (mkWorld 7%Z false [] [fresh_map Demo.constants] [] [])
      ++ [marker_html "red" (LInt 1)] /\
    files w' = files (mkWorld 7%Z false [] [fresh_map Demo.constants] [] []).
Proof.
  split; [reflexivity |].
  apply (add_marker_adds_one Demo.constants 0 61 73 "red" (LInt 1)
           (fresh_map Demo.constants)
           (mkWorld 7%Z false [] [fresh_map Demo.constants] [] [])).
  reflexivity.
Defined.

(** * generate_random_coordinates over binary64: results *)

(** A double is not [> 0] exactly when it is [<= 0] or [nan]. *)
Lemma not_positive_iff (x : float) :
  (0 <? x)%float = false <-> (x <=? 0)%float = true \/ is_nan x = true.
Proof.
  unfold is_nan. rewrite ltb_spec, leb_spec, FloatAxioms.eqb_spec.
  change (Prim2SF 0) with (S754_zero false).
  destruct (Prim2SF x) as [s | s | | s m e]; cbn;
    try destruct s; cbn;
    rewrite ?Z.compare_refl, ?Pos.compare_cont_refl; cbn;
    intuition discriminate.
Qed.

Section Binary64Facts.

Context {G : Type} `{!Binary64.PRNG G}.
Variable c : Binary64.Constants.

Lemma binary64_checks_pass (center : list float) (msg : string)
    (w : World G) :
  Forall (fun x => (0 <? x)%float = true) center ->
  for_each center (fun coordinate => py_assert (0 <? coordinate)%float msg) w
  = (Returns tt, w).
Proof.
  induction 1 as [| x l Hx _ IH]; [done |].
  cbn [for_each]. unfold bind, py_assert. by rewrite Hx.
Qed.

Lemma binary64_checks_fail (center : list float) (msg : string)
    (w : World G) :
  Exists (fun x => (0 <? x)%float = false) center ->
  for_each center (fun coordinate => py_assert (0 <? coordinate)%float msg) w
  = (Raises (AssertionError msg), w).
Proof.
  induction center as [| x l IH]; intros Hex; [by inversion Hex |].
  cbn [for_each]. unfold bind, py_assert.
  destruct (0 <? x)%float eqn:Hx; [| done].
  apply Exists_cons in Hex as [Hno | Hex]; [congruence | by apply IH].
Qed.

(** One turn of the loop: two draws, and the pair they give appended. *)
Lemma binary64_turn_run (center0 center1 threshold : float)
    (coordinates : list (float * float)) (w : World G) :
  exists (p : float * float) (w' : World G),
    Binary64.drawn_around c [center0; center1] threshold p /\
    Binary64.append_random_coordinate c [center0; center1] threshold
      coordinates w
    = (Returns (coordinates ++ [p]), w').
Proof.
  destruct (Binary64.random (rng w)) as [r1 g1] eqn:E1.
  destruct (Binary64.random g1) as [r2 g2] eqn:E2.
  pose proof (Binary64.random_unit (rng w)) as U1. rewrite E1 in U1.
  pose proof (Binary64.random_unit g1) as U2. rewrite E2 in U2.
  eexists (_, _), _. split.
  - exists center0, center1, r1, r2. cbn [fst snd].
    split_and!; [reflexivity | exact U1 | exact U2 | reflexivity..].
  - unfold Binary64.append_random_coordinate, bind, getitem,
      Binary64.random_uniform, bind, Binary64.random_random, ret;
      cbn [lookup list_lookup].
    rewrite E1, rng_set_rng, E2. reflexivity.
Qed.

(** The whole loop returns, with one pair per turn. *)
Lemma binary64_loop_run (center0 center1 threshold : float) (n : nat) :
  forall (coordinates : list (float * float)) (w : World G),
  exists (drawn : list (float * float)) (w' : World G),
    length drawn = n /\
    Forall (Binary64.drawn_around c [center0; center1] threshold) drawn /\
    for_range n
      (Binary64.append_random_coordinate c [center0; center1] threshold)
      coordinates w
    = (Returns (coordinates ++ drawn), w').
Proof.
  induction n as [| n IH]; intros coordinates w.
  - exists [], w. split_and!; [done | constructor |].
    cbn. by rewrite app_nil_r.
  - destruct (binary64_turn_run center0 center1 threshold coordinates w)
      as (p & w1 & Hp & Hstep).
    destruct (IH (coordinates ++ [p]) w1) as (drawn & w' & Hlen & Hall & Hloop).
    exists (p :: drawn), w'. split_and!.
    + cbn. by rewrite Hlen.
    + by constructor.
    + cbn [for_range]. rewrite (bind_returns _ _ _ _ _ Hstep), Hloop.
      by rewrite <- app_assoc.
Qed.

(** A request that passes the three assertions returns. *)
Lemma binary64_valid_run (center : list float) (threshold : float)
    (number : Z) (w : World G) :
  (1 <= number)%Z ->
  length center = 2 ->
  Forall (fun x => (0 <? x)%float = true) center ->
  exists (coordinates : list (float * float)) (w' : World G),
    length coordinates = Z.to_nat number /\
    Forall (Binary64.drawn_around c center threshold) coordinates /\
    Binary64.generate_random_coordinates c center threshold number w
    = (Returns coordinates, w').
Proof.
  intros Hnum Hlen Hpos.
  unfold Binary64.generate_random_coordinates.
  apply Z.leb_le in Hnum as ->. pose proof Hlen as Hlen'.
  apply Nat.eqb_eq in Hlen' as ->.
  rewrite (bind_returns _ _ _ _ _ (assert_true_run _ w)).
  rewrite (bind_returns _ _ _ _ _ (assert_true_run _ w)).
  rewrite (bind_returns _ _ _ _ _ (binary64_checks_pass _ _ w Hpos)).
  destruct center as [| center0 [| center1 [| ? ?]]]; try done.
  set (w0 := if Binary64.IS_RANDOM_SEED_ACTIVE c
             then set_rng (Binary64.seed (Binary64.RANDOM_SEED c)) w else w).
  rewrite (bind_returns _ _ w tt w0)
    by (subst w0; by destruct (Binary64.IS_RANDOM_SEED_ACTIVE c)).
  destruct (binary64_loop_run center0 center1 threshold (Z.to_nat number)
              [] w0) as (drawn & w' & Hn & Hall & Hloop).
  exists drawn, w'. split_and!; [done.. |].
  by rewrite bind_ret_r, Hloop.
Qed.

(** A request that fails one of them stops there, at an
    [AssertionError]. *)
Lemma binary64_invalid_run (center : list float) (threshold : float)
    (number : Z) (w : World G) :
  ((number < 1)%Z \/ length center <> 2 \/
   Exists (fun x => (0 <? x)%float = false) center) ->
  exists msg,
    Binary64.generate_random_coordinates c center threshold number w
    = (Raises (AssertionError msg), w).
Proof.
  intros Hbad.
  unfold Binary64.generate_random_coordinates.
  destruct (1 <=? number)%Z eqn:Hnum; [| by eexists].
  destruct (length center =? 2)%nat eqn:Hlen; [| by eexists].
  apply Z.leb_le in Hnum. apply Nat.eqb_eq in Hlen.
  destruct Hbad as [? | [? | Hex]]; [lia | done |].
  eexists.
  rewrite (bind_returns _ _ _ _ _ (assert_true_run _ w)).
  rewrite (bind_returns _ _ _ _ _ (assert_true_run _ w)).
  by rewrite (bind_raises _ _ _ _ _ (binary64_checks_fail _ _ w Hex)).
Qed.

Lemma binary64_request_dec (center : list float) (number : Z) :
  ((1 <= number)%Z /\ length center = 2 /\
   Forall (fun x => (0 <? x)%float = true) center) \/
  ((number < 1)%Z \/ length center <> 2 \/
   Exists (fun x => (0 <? x)%float = false) center).
Proof.
  destruct (Z_lt_le_dec number 1); [tauto |].
  destruct (decide (length center = 2)); [| tauto].
  assert (Forall (fun x => (0 <? x)%float = true) center \/
          Exists (fun x => (0 <? x)%float = false) center) as [? | ?];
    [| tauto..].
  clear. induction center as [| x l [IH | IH]].
  - left. constructor.
  - destruct (0 <? x)%float eqn:Hx.
    + left. by constructor.
    + right. by constructor.
  - right. by constructor 2.
Qed.


(** C3, as amended.  The call raises exactly when [number < 1], or the
    center has not two coordinates, or one of them is [<= 0] or is [nan];
    what it raises is then an assertion failure. *)
Theorem generate_random_coordinates_raises_unless_positive
    (center : list float) (threshold : float) (number : Z) (w : World G) :
  ((exists e w',
       Binary64.generate_random_coordinates c center threshold number w
       = (Raises e, w'))
   <-> ((number < 1)%Z \/ length center <> 2 \/
        Exists (fun x => (x <=? 0)%float = true \/ is_nan x = true) center)) /\
  (forall e w',
      Binary64.generate_random_coordinates c center threshold number w
      = (Raises e, w') ->
      exists msg, e = AssertionError msg).
Proof.
  assert (Exists (fun x => (x <=? 0)%float = true \/ is_nan x = true) center
          <-> Exists (fun x => (0 <? x)%float = false) center) as Hnot.
  { rewrite !Exists_exists. by setoid_rewrite not_positive_iff. }
  rewrite Hnot.
  destruct (binary64_request_dec center number)
    as [(Hnum & Hlen & Hpos) | Hbad].
  - destruct (binary64_valid_run center threshold number w Hnum Hlen Hpos)
      as (coordinates & w' & _ & _ & Hrun).
    rewrite Hrun. split; [split |].
    + by intros (e & w'' & ?).
    + intros [? | [? | Hex]]; [lia | done |].
      exfalso. apply Exists_exists in Hex as (x & Hin & Hno).
      pose proof (proj1 (Forall_forall _ _) Hpos x Hin) as Hx.
      cbv beta in Hx. congruence.
    + done.
  - destruct (binary64_invalid_run center threshold number w Hbad)
      as [msg Hmsg].
    rewrite Hmsg. split; [split |].
    + done.
    + by eauto.
    + intros e w' [= <- _]. by eauto.
Qed.

End Binary64Facts.



(** C3 as stated fails on [nan].  With the center [(nan, 73)] the third
    assertion fires, [nan > 0.0] being false, although the count is one,
    the center has two coordinates and none of them is [<= 0]. *)
Lemma generate_random_coordinates_nan_center :
  ~ ((exists e w',
         Binary64.generate_random_coordinates Binary64.demo [nan; 73]%float
           Binary64.tenth 1 (Binary64.world Binary64.Edge)
         = (Raises e, w'))
     <-> ((1 < 1)%Z \/ length [nan; 73]%float <> 2 \/
          Exists (fun x => (x <=? 0)%float = true) [nan; 73]%float)).
Proof.
  intros [Hraises _].
  destruct Hraises as [Hnum | [Hlen | Hex]].
  - eexists _, _. vm_compute. reflexivity.
  - lia.
  - by apply Hlen.
  - apply Exists_cons in Hex as [Hnan | Hex]; [by vm_compute in Hnan |].
    apply Exists_cons in Hex as [Hpos | Hex]; [by vm_compute in Hpos |].
    by apply Exists_nil in Hex.
Qed.

(** * Files written, for the runs that return *)

(** ** os.path.join on a plain directory and a relative name *)

Lemma prefix_sep_false (b : string) :
  (forall s, b <> "/" +:+ s) -> String.prefix "/" b = false.
Proof.
  intros Hb. destruct b as [| y b]; [done |].
  destruct y as [[] [] [] [] [] [] [] []]; try reflexivity.
  by destruct (Hb b).
Qed.

Lemma ends_with_sep_false (a : string) :
  (forall s, a <> s +:+ "/") -> ends_with_sep a = false.
Proof.
  induction a as [| x a IH]; intros Ha; [done |].
  destruct a as [| y a].
  - destruct x as [[] [] [] [] [] [] [] []]; try reflexivity.
    by destruct (Ha EmptyString).
  - change (ends_with_sep (String x (String y a)))
      with (ends_with_sep (String y a)).
    apply IH. intros s Hs. apply (Ha (String x s)).
    by rewrite append_cons, Hs.
Qed.

(** A directory that is not empty and does not end with a separator, and a
    name that does not start with one, are joined with one separator. *)
Lemma path_join_plain (a b : string) :
  a <> EmptyString ->
  (forall s, a <> s +:+ "/") ->
  (forall s, b <> "/" +:+ s) ->
  path_join a b = a +:+ "/" +:+ b.
Proof.
  intros Hne Ha Hb. unfold path_join.
  rewrite prefix_sep_false, ends_with_sep_false by done.
  by destruct a.
Qed.

Section DrillImageReturns.

Context {G : Type}.
Variable c : Constants.

(** X5.  When a call with two columns or more, all of them columns of the
    table, returns, it has written one file and no other, at
    [export_path/export_name.png] (for a directory that does not end with
    a separator and a relative name), and printed that path; the figure
    has the main title and a subplot per listed column, in order, each
    titled by its column. *)
Theorem generate_horizon_drill_image_several_columns (d : DataFrame)
    (columns : list string) (export_path export_name : string)
    (w w' : World G) :
  2 <= length columns ->
  Forall (fun column => is_Some (df_columns d !! column)) columns ->
  export_path <> EmptyString ->
  (forall s, export_path <> s +:+ "/") ->
  (forall s, export_name <> "/" +:+ s) ->
  generate_horizon_drill_image c (ODataFrame d) export_path export_name
    columns w
  = (Returns tt, w') ->
  exists fig : Figure,
    files w'
    = files w ++
      [((export_path +:+ "/" +:+ export_name) +:+ ".png", PngImage fig)] /\
    stdout w'
    = stdout w ++
      ["Drilling report exported to:" +:+ newline +:+
       ((export_path +:+ "/" +:+ export_name) +:+ ".png")] /\
    fig_suptitle fig = Some (STR_PLOT_MAIN_TITLE c) /\
    Forall2 (fun column ax => ax_title ax = Some column)
      columns (fig_axes fig).
Proof.
  intros Hlen Hcols Hne Hdir Hname Hrun.
  rewrite several_columns_world in Hrun by done.
  injection Hrun as <-. rewrite path_join_plain by done.
  eexists. split_and!; [reflexivity.. |].
  cbn [report_figure fig_axes].
  apply Forall2_alter_r; [| done].
  clear. induction columns as [| column columns IH]; cbn [map];
    by constructor.
Qed.

End DrillImageReturns.

Lemma demo_columns_present :
  Forall (fun column => is_Some (df_columns Demo.wells !! column))
    ["speed"; "depth"].
Proof. repeat (constructor; [by eexists |]). constructor. Defined.

Lemma ends_with_sep_app (s : string) : ends_with_sep (s +:+ "/") = true.
Proof.
  induction s as [| x s IH]; [reflexivity |].
  rewrite append_cons. destruct s as [| y s]; [reflexivity |].
  rewrite append_cons in IH |- *. exact IH.
Qed.

Lemma not_closed (a : string) :
  ends_with_sep a = false -> forall s, a <> s +:+ "/".
Proof. intros Ha s ->. by rewrite ends_with_sep_app in Ha. Qed.

Lemma not_rooted (b : string) :
  String.prefix "/" b = false -> forall s, b <> "/" +:+ s.
Proof.
  intros Hb s ->. rewrite append_cons in Hb. cbn in Hb.
  change (EmptyString +:+ s) with s in Hb. by destruct s.
Qed.

Lemma generate_horizon_drill_image_several_columns_witness :
  exists w' : World Z,
    2 <= length ["speed"; "depth"] /\
    Forall (fun column => is_Some (df_columns Demo.wells !! column))
      ["speed"; "depth"] /\
    "export" <> EmptyString /\
    (forall s, "export" <> s +:+ "/") /\
    (forall s, "report" <> "/" +:+ s) /\
    generate_horizon_drill_image Demo.constants (ODataFrame Demo.wells)
      "export" "report" ["speed"; "depth"] (Demo.world 7)
    = (Returns tt, w') /\
    exists fig : Figure,
      files w'
      = files (Demo.world 7) ++
        [(("export" +:+ "/" +:+ "report") +:+ ".png", PngImage fig)] /\
      stdout w'
      = stdout (Demo.world 7) ++
        ["Drilling report exported to:" +:+ newline +:+
         (("export" +:+ "/" +:+ "report") +:+ ".png")] /\
      fig_suptitle fig = Some (STR_PLOT_MAIN_TITLE Demo.constants) /\
      Forall2 (fun column ax => ax_title ax = Some column)
        ["speed"; "depth"] (fig_axes fig).
Proof.
  eexists.
  split_and!;
    [cbn; lia | exact demo_columns_present | discriminate
     | apply not_closed; reflexivity | apply not_rooted; reflexivity
     | vm_compute; reflexivity |].
  eapply (generate_horizon_drill_image_several_columns Demo.constants
            Demo.wells ["speed"; "depth"] "export" "report" (Demo.world 7));
    [cbn; lia | exact demo_columns_present | discriminate
     | apply not_closed; reflexivity | apply not_rooted; reflexivity
     | vm_compute; reflexivity].
Defined.

Section MapReturns.

Context {G : Type} `{!PRNG G}.
Variable c : Constants.

(** X11.  When [save_map] returns, on a table with a well at least and
    with a sound [MAP_CENTER], it has written one file and no other, at
    [export_path/export_name.html] (for a directory that does not end with
    a separator and a relative name): the map it has made, centered at
    [MAP_CENTER] with the configured zoom and tiles and with the title as
    its one piece of HTML.  No figure is touched. *)
Theorem save_map_writes_page (data : DataFrame) (target : label)
    (export_path export_name : string) (well_ids : list label)
    (w w' : World G) :
  map_center_ok c ->
  df_columns data !! WELL_ID_FIELD_NAME c = Some well_ids ->
  unique well_ids <> [] ->
  export_path <> EmptyString ->
  (forall s, export_path <> s +:+ "/") ->
  (forall s, export_name <> "/" +:+ s) ->
  save_map c data target export_path export_name w = (Returns tt, w') ->
  exists page : FoliumMap,
    files w'
    = files w ++
      [((export_path +:+ "/" +:+ export_name) +:+ ".html", HtmlPage page)] /\
    maps w' = maps w ++ [page] /\
    map_location page = MAP_CENTER c /\
    map_zoom_start page = ZOOM_START c /\
    map_tiles page = TILES_TYPE c /\
    map_html page
    = ["<h3 style=" +:+ dquote +:+ "font-size:20px" +:+ dquote +:+ "><b>"
         +:+ MAP_TITLE c +:+ "</b></h3>"] /\
    figures w' = figures w.
Proof.
  intros Hcenter Hcol Hsome Hne Hdir Hname Hrun.
  destruct (save_map_world c data target export_path export_name well_ids w
              Hcenter Hcol Hsome) as (coordinates & g' & _ & _ & _ & Hworld).
  rewrite Hworld in Hrun. injection Hrun as <-.
  rewrite path_join_plain by done.
  eexists. split_and!; reflexivity.
Qed.

(** X17.  With the seed switched on the markers are reproducible:
    whatever the worlds two runs of [save_map] start in, on the same table
    and target the maps they make carry the same markers, places and icons
    alike. *)
Theorem save_map_reproducible (data : DataFrame) (target : label)
    (export_path export_name : string) (well_ids : list label)
    (w1 w2 : World G) :
  IS_RANDOM_SEED_ACTIVE c = true ->
  map_center_ok c ->
  df_columns data !! WELL_ID_FIELD_NAME c = Some well_ids ->
  exists page1 page2 : FoliumMap,
    maps (save_map c data target export_path export_name w1).2
    = maps w1 ++ [page1] /\
    maps (save_map c data target export_path export_name w2).2
    = maps w2 ++ [page2] /\
    map_markers page1 = map_markers page2.
Proof.
  intros Hseed Hcenter Hcol.
  destruct (decide (unique well_ids = [])) as [Hnone | Hsome].
  - rewrite !(save_map_no_wells_run c data target export_path export_name
                well_ids _ (proj1 Hcenter) Hcol Hnone).
    exists (fresh_map c), (fresh_map c).
    split_and!; [by destruct w1 | by destruct w2 | done].
  - destruct (save_map_world c data target export_path export_name well_ids
                w1 Hcenter Hcol Hsome) as (coords1 & g1 & _ & _ & Hrun1 & ->).
    destruct (save_map_world c data target export_path export_name well_ids
                w2 Hcenter Hcol Hsome) as (coords2 & g2 & _ & _ & Hrun2 & ->).
    eexists _, _. split_and!; [reflexivity | reflexivity |].
    destruct (seeded_call_run c (MAP_CENTER c) (RANDOM_COORDS_THRESHOLD c)
                (Z.of_nat (length (unique well_ids))) Hseed)
      as [(coordinates & g0 & Hall) | (msg & Hall)].
    + rewrite Hall in Hrun1, Hrun2.
      injection Hrun1 as <- _. injection Hrun2 as <- _. reflexivity.
    + by rewrite Hall in Hrun1.
Qed.

(** X19.  When the script returns, on a sheet with its ["str"] column and
    its well-identifier column, two report columns or more that are
    columns of the sheet other than ["str"], a row at least and a sound
    [MAP_CENTER], it has written two files and no other: first the report
    image [EXPORT_PATH/REPORT_NAME_1.png], then the map
    [EXPORT_PATH/MAP_NAME.html].  The image has a subplot per report
    column, titled by it; the map has a marker per unique well of the
    whole sheet. *)
Theorem main_writes_report_and_map (sheet : DataFrame)
    (strata well_ids : list label) (w w' : World G) :
  df_columns sheet !! "str" = Some strata ->
  df_columns sheet !! WELL_ID_FIELD_NAME c = Some well_ids ->
  WELL_ID_FIELD_NAME c <> "str" ->
  well_ids <> [] ->
  2 <= length (REPORT_COLUMNS c) ->
  Forall (fun column => column <> "str" /\
                        is_Some (df_columns sheet !! column))
    (REPORT_COLUMNS c) ->
  map_center_ok c ->
  EXPORT_PATH c <> EmptyString ->
  (forall s, EXPORT_PATH c <> s +:+ "/") ->
  (forall s, REPORT_NAME c +:+ "_1" <> "/" +:+ s) ->
  (forall s, MAP_NAME c <> "/" +:+ s) ->
  main c sheet w = (Returns tt, w') ->
  exists (fig : Figure) (page : FoliumMap),
    files w'
    = files w ++
      [((EXPORT_PATH c +:+ "/" +:+ (REPORT_NAME c +:+ "_1")) +:+ ".png",
        PngImage fig);
       ((EXPORT_PATH c +:+ "/" +:+ MAP_NAME c) +:+ ".html", HtmlPage page)] /\
    Forall2 (fun column ax => ax_title ax = Some column)
      (REPORT_COLUMNS c) (fig_axes fig) /\
    length (map_markers page) = length (unique well_ids) /\
    NoDup (unique well_ids) /\
    (forall well_id, well_id ∈ unique well_ids <-> well_id ∈ well_ids).
Proof.
  intros Hstr Hid Hne Hsome Hlen Hcols Hcenter Hdir0 Hdir Hreport Hmap Hrun.
  rewrite (main_start c sheet strata well_ids w) in Hrun by done.
  erewrite bind_returns in Hrun; cycle 1.
  { apply several_columns_world; [done |].
    eapply Forall_impl; [exact Hcols |].
    intros column [Hcol [values Hvalues]]. cbn [frame_filter df_columns].
    erewrite filtered_column by done. by eexists. }
  edestruct (save_map_world c
               {| df_index := strata;
                  df_columns := delete "str" (df_columns sheet) |}
               (LInt 1) (EXPORT_PATH c) (MAP_NAME c) well_ids)
    as (coordinates & g' & Hn & _ & _ & Hworld);
    [done | by cbn [df_columns]; rewrite lookup_delete_ne
     | by rewrite unique_nil |].
  rewrite Hworld in Hrun. injection Hrun as <-.
  rewrite !path_join_plain by done.
  eexists _, _. split_and!.
  - cbn [files]. by rewrite <- app_assoc.
  - cbn [report_figure fig_axes].
    apply Forall2_alter_r; [| done].
    clear. induction (REPORT_COLUMNS c) as [| column columns IH]; cbn [map];
      by constructor.
  - cbn [well_page map_markers]. rewrite length_map, length_zip. lia.
  - apply unique_spec.
  - apply unique_spec.
Qed.

End MapReturns.

Lemma save_map_writes_page_witness :
  exists w' : World Z,
    map_center_ok Demo.constants /\
    df_columns Demo.wells !! WELL_ID_FIELD_NAME Demo.constants
    = Some [LInt 1; LInt 2; LInt 1] /\
    unique [LInt 1; LInt 2; LInt 1] <> [] /\
    "export" <> EmptyString /\
    (forall s, "export" <> s +:+ "/") /\
    (forall s, "map" <> "/" +:+ s) /\
    save_map Demo.constants Demo.wells (LInt 1) "export" "map" (Demo.world 7)
    = (Returns tt, w') /\
    exists page : FoliumMap,
      files w'
      = files (Demo.world 7) ++
        [(("export" +:+ "/" +:+ "map") +:+ ".html", HtmlPage page)] /\
      maps w' = maps (Demo.world 7) ++ [page] /\
      map_location page = MAP_CENTER Demo.constants /\
      map_zoom_start page = ZOOM_START Demo.constants /\
      map_tiles page = TILES_TYPE Demo.constants /\
      map_html page
      = ["<h3 style=" +:+ dquote +:+ "font-size:20px" +:+ dquote +:+ "><b>"
           +:+ MAP_TITLE Demo.constants +:+ "</b></h3>"] /\
      figures w' = figures (Demo.world 7).
Proof.
  eexists.
  split_and!;
    [exact demo_center_ok | reflexivity | exact demo_wells_some
     | discriminate | apply not_closed; reflexivity
     | apply not_rooted; reflexivity | vm_compute; reflexivity |].
  eapply (save_map_writes_page Demo.constants Demo.wells (LInt 1) "export"
            "map" [LInt 1; LInt 2; LInt 1] (Demo.world 7));
    [exact demo_center_ok | reflexivity | exact demo_wells_some
     | discriminate | apply not_closed; reflexivity
     | apply not_rooted; reflexivity | vm_compute; reflexivity].
Defined.

Lemma save_map_reproducible_witness :
  IS_RANDOM_SEED_ACTIVE Demo.constants = true /\
  map_center_ok Demo.constants /\
  df_columns Demo.wells !! WELL_ID_FIELD_NAME Demo.constants
  = Some [LInt 1; LInt 2; LInt 1] /\
  exists page1 page2 : FoliumMap,
    maps (save_map Demo.constants Demo.wells (LInt 1) "export" "map"
            (Demo.world 7)).2
    = maps (Demo.world 7) ++ [page1] /\
    maps (save_map Demo.constants Demo.wells (LInt 1) "export" "map"
            (Demo.world 2024)).2
    = maps (Demo.world 2024) ++ [page2] /\
    map_markers page1 = map_markers page2.
Proof.
  split_and!; [reflexivity | exact demo_center_ok | reflexivity |].
  apply (save_map_reproducible Demo.constants Demo.wells (LInt 1) "export"
           "map" [LInt 1; LInt 2; LInt 1] (Demo.world 7) (Demo.world 2024));
    [reflexivity | exact demo_center_ok | reflexivity].
Defined.

Lemma main_writes_report_and_map_witness :
  exists w' : World Z,
    df_columns DemoScript.sheet !! "str"
    = Some [LInt 1; LInt 2; LInt 1; LInt 2] /\
    df_columns DemoScript.sheet !! WELL_ID_FIELD_NAME Demo.constants
    = Some [LInt 1; LInt 1; LInt 2; LInt 3] /\
    WELL_ID_FIELD_NAME Demo.constants <> "str" /\
    [LInt 1; LInt 1; LInt 2; LInt 3] <> [] /\
    2 <= length (REPORT_COLUMNS Demo.constants) /\
    Forall (fun column => column <> "str" /\
                          is_Some (df_columns DemoScript.sheet !! column))
      (REPORT_COLUMNS Demo.constants) /\
    map_center_ok Demo.constants /\
    EXPORT_PATH Demo.constants <> EmptyString /\
    (forall s, EXPORT_PATH Demo.constants <> s +:+ "/") /\
    (forall s, REPORT_NAME Demo.constants +:+ "_1" <> "/" +:+ s) /\
    (forall s, MAP_NAME Demo.constants <> "/" +:+ s) /\
    main Demo.constants DemoScript.sheet (Demo.world 7) = (Returns tt, w') /\
    exists (fig : Figure) (page : FoliumMap),
      files w'
      = files (Demo.world 7) ++
        [((EXPORT_PATH Demo.constants +:+ "/" +:+
           (REPORT_NAME Demo.constants +:+ "_1")) +:+ ".png",
          PngImage fig);
         ((EXPORT_PATH Demo.constants +:+ "/" +:+ MAP_NAME Demo.constants)
            +:+ ".html",
          HtmlPage page)] /\
      Forall2 (fun column ax => ax_title ax = Some column)
        (REPORT_COLUMNS Demo.constants) (fig_axes fig) /\
      length (map_markers page)
      = length (unique [LInt 1; LInt 1; LInt 2; LInt 3]) /\
      NoDup (unique [LInt 1; LInt 1; LInt 2; LInt 3]) /\
      (forall well_id,
          well_id ∈ unique [LInt 1; LInt 1; LInt 2; LInt 3]
          <-> well_id ∈ [LInt 1; LInt 1; LInt 2; LInt 3]).
Proof.
  eexists.
  split_and!;
    [reflexivity | reflexivity | discriminate | discriminate | cbn; lia
     | exact demo_report_columns | exact demo_center_ok | discriminate
     | apply not_closed; reflexivity | apply not_rooted; reflexivity
     | apply not_rooted; reflexivity | vm_compute; reflexivity |].
  eapply (main_writes_report_and_map Demo.constants DemoScript.sheet
            [LInt 1; LInt 2; LInt 1; LInt 2] [LInt 1; LInt 1; LInt 2; LInt 3]
            (Demo.world 7));
    [reflexivity | reflexivity | discriminate | discriminate | cbn; lia
     | exact demo_report_columns | exact demo_center_ok | discriminate
     | apply not_closed; reflexivity | apply not_rooted; reflexivity
     | apply not_rooted; reflexivity | vm_compute; reflexivity].
Defined.
